(** * Deployment script of the destinations_similarity Flyte project

    A shallow embedding of [projects/destinations_similarity/deploy.py].
    The script is a sequence of calls to external tools (flytectl, pyflyte,
    git, the docker daemon) with a little string formatting in between, so
    the model is a state-and-exception monad over a [World]: the world holds
    what the script can observe (working tree, files, environment), the
    behaviour of the external tools as oracles over the history, and the
    chronological log of every externally visible action the script took. *)

From Stdlib Require Import ZArith Ascii String List Lia.
From stdpp Require Import base gmap strings list.

Open Scope string_scope.
Open Scope Z_scope.
Open Scope list_scope.

(** ** The Python string operations the script uses *)

Module PyStr.

(** [str.lower] on the ASCII range (the only letters the script lowers are
    those of the [REGISTRY] literal). *)
Definition lower_char (c : ascii) : ascii :=
  let n := nat_of_ascii c in
  if ((65 <=? n) && (n <=? 90))%nat then ascii_of_nat (n + 32) else c.

Fixpoint lower (s : string) : string :=
  match s with
  | EmptyString => EmptyString
  | String c r => String (lower_char c) (lower r)
  end.

(** Text that reaches the script from outside is a Python [str]: a sequence
    of Unicode code points. *)

(** [str.isspace] on one code point: the code points Python counts as white
    space (TAB..CR, FS..US, the blank, NEL, NBSP and the Unicode spaces and
    line separators). *)
Definition isspace (c : Z) : bool :=
  ((9 <=? c) && (c <=? 13)) || ((28 <=? c) && (c <=? 32))
  || (c =? 0x85) || (c =? 0xA0) || (c =? 0x1680)
  || ((0x2000 <=? c) && (c <=? 0x200A))
  || (c =? 0x2028) || (c =? 0x2029) || (c =? 0x202F)
  || (c =? 0x205F) || (c =? 0x3000).

Fixpoint lstrip (s : list Z) : list Z :=
  match s with
  | [] => []
  | c :: r => if isspace c then lstrip r else s
  end.

Fixpoint rstrip (s : list Z) : list Z :=
  match s with
  | [] => []
  | c :: r =>
      match rstrip r with
      | [] => if isspace c then [] else [c]
      | r' => c :: r'
      end
  end.

(** [s.strip()] *)
Definition strip (s : list Z) : list Z := rstrip (lstrip s).

(** A continuation byte of UTF-8. *)
Definition is_cont (b : Z) : bool := (0x80 <=? b) && (b <=? 0xBF).

(** Strict UTF-8, as [bytes.decode()] applies it: no overlong form, no
    surrogate, nothing above U+10FFFF, no truncated sequence. *)
Fixpoint utf8_decode (bs : list Z) : option (list Z) :=
  match bs with
  | [] => Some []
  | b0 :: r =>
      if b0 <? 0x80 then cons b0 <$> utf8_decode r
      else if (0xC2 <=? b0) && (b0 <=? 0xDF) then
        match r with
        | b1 :: r1 =>
            if is_cont b1
            then cons ((b0 - 0xC0) * 64 + (b1 - 0x80)) <$> utf8_decode r1
            else None
        | _ => None
        end
      else if (0xE0 <=? b0) && (b0 <=? 0xEF) then
        match r with
        | b1 :: b2 :: r2 =>
            if is_cont b1 && is_cont b2
               && (negb (b0 =? 0xE0) || (0xA0 <=? b1))
               && (negb (b0 =? 0xED) || (b1 <=? 0x9F))
            then cons ((b0 - 0xE0) * 4096 + (b1 - 0x80) * 64 + (b2 - 0x80))
                   <$> utf8_decode r2
            else None
        | _ => None
        end
      else if (0xF0 <=? b0) && (b0 <=? 0xF4) then
        match r with
        | b1 :: b2 :: b3 :: r3 =>
            if is_cont b1 && is_cont b2 && is_cont b3
               && (negb (b0 =? 0xF0) || (0x90 <=? b1))
               && (negb (b0 =? 0xF4) || (b1 <=? 0x8F))
            then cons ((b0 - 0xF0) * 262144 + (b1 - 0x80) * 4096
                       + (b2 - 0x80) * 64 + (b3 - 0x80))
                   <$> utf8_decode r3
            else None
        | _ => None
        end
      else None
  end.

(** [b.decode()] of a byte string; [None] stands for [UnicodeDecodeError]. *)
Definition decode (b : string) : option (list Z) :=
  utf8_decode ((fun c => Z.of_nat (nat_of_ascii c)) <$> list_ascii_of_string b).

(** [s[:n]] *)
Definition slice_to (n : nat) (s : string) : string := substring 0 n s.

Definition hexdigit (d : Z) : ascii :=
  match d with
  | 0 => "0" | 1 => "1" | 2 => "2" | 3 => "3" | 4 => "4" | 5 => "5"
  | 6 => "6" | 7 => "7" | 8 => "8" | 9 => "9" | 10 => "a" | 11 => "b"
  | 12 => "c" | 13 => "d" | 14 => "e" | _ => "f"
  end%char.

(** ['%0<width>x' % x] for [0 <= x < 16 ^ width]: exactly [width] digits,
    most significant first. *)
Fixpoint hex_fixed (width : nat) (x : Z) : string :=
  match width with
  | O => EmptyString
  | S k => String (hexdigit ((x / 16 ^ Z.of_nat k) mod 16)) (hex_fixed k x)
  end.

Definition is_hexdigit (c : ascii) : bool :=
  let n := nat_of_ascii c in
  (((48 <=? n) && (n <=? 57)) || ((97 <=? n) && (n <=? 102)))%nat.

Fixpoint all_hex (s : string) : bool :=
  match s with
  | EmptyString => true
  | String c r => is_hexdigit c && all_hex r
  end.

(** [Path(a) / b], rendered as the POSIX string the tools receive. *)
Definition path_join (a b : string) : string := a +:+ "/" +:+ b.

End PyStr.

(** ** Python's [uuid] module, as far as [uuid.uuid4().hex] needs it *)

Module uuid.

Record UUID := { int : Z }.

(** [UUID(bytes=os.urandom(16), version=4)]: the 128 random bits with the
    variant and version fields overwritten. *)
Definition of_random (r : Z) : UUID :=
  let i := r mod 2 ^ 128 in
  let i := Z.land i (Z.lnot (Z.shiftl 0xc000 48)) in
  let i := Z.lor i (Z.shiftl 0x8000 48) in
  let i := Z.land i (Z.lnot (Z.shiftl 0xf000 64)) in
  let i := Z.lor i (Z.shiftl 4 76) in
  {| int := i |}.

(** [UUID.hex]: ['%032x' % self.int] *)
Definition hex (u : UUID) : string := PyStr.hex_fixed 32 (int u).

End uuid.

(** ** Module constants *)

Definition IMAGE_NAME : string := "flytelab".
Definition REGISTRY : string := PyStr.lower "ghcr.io/patrickfbraz".
Definition PROJECT_NAME : string := "vamos-dalhe".
Definition DESCRIPTION : string := "Hurb project to the Flyte Hackathon".

(** ** The tag of the project's image: a pure function *)

Definition get_tag (version : string) (registry : option string) : string :=
  (match registry with None => REGISTRY | Some r => r end)
    +:+ "/" +:+ IMAGE_NAME +:+ ":" +:+ PROJECT_NAME +:+ "-" +:+ version.

(** ** The world the script runs in *)

(** [git.Repo]: what the script reads of the working tree, whether it has
    uncommitted changes and the commit HEAD resolves to; [HEAD] is [None] in
    a repository that has no commit yet. *)
Record Commit := { hexsha : string }.
Record Repo := { is_dirty : bool; HEAD : option Commit }.

(** [docker.models.images.Image] *)
Record Image := { tags : list string }.

(** [subprocess.CompletedProcess]; [stdout] holds the bytes the process
    printed. *)
Record CompletedProcess := { returncode : Z; stdout : string }.

(** Every externally visible action, in the order the script performs it.
    A process spawned with [env = None] inherits the environment. *)
Inductive Event :=
| Echo (err : bool) (message : string)
| Spawn (argv : list string) (env : option (gmap string string))
| Unlink (path : string)
| ImagesBuild (path dockerfile tag : string) (buildargs : gmap string string)
| ApiPush (repository : string).

Inductive Exn :=
| Exit (code : Z)
| CalledProcessError (code : Z) (cmd : list string)
| FileNotFoundError (filename : string)
| IsADirectoryError (filename : string)
| PermissionError (filename : string)
| UnicodeDecodeError
| InvalidGitRepositoryError
| BadName
| BuildError
| IndexError.

(** Why the operating system refuses to unlink a path that exists. *)
Inductive UnlinkError :=
| IsADirectory
| PermissionDenied.

(** The external tools and the operating system.  Each answers from the
    history of the run so far, so the same command may answer differently the
    second time; a process also sees the files and may change them.  [unlink]
    tells whether removing a path is refused. *)
Record Host := {
  spawn : list Event -> gmap string string -> list string ->
          option (gmap string string) ->
          option (CompletedProcess * gmap string string);
  unlink : list Event -> string -> option UnlinkError;
  images_build : list Event -> string -> gmap string string ->
                 option (Image * list string);
  api_push : list Event -> string -> list string;
  urandom16 : nat -> Z
}.

(** [repo] is [None] when the script is not run inside a git repository;
    [files] are the paths that exist. *)
Record World := {
  host : Host;
  repo : option Repo;
  files : gmap string string;
  environ : gmap string string;
  drawn : nat;
  log : list Event
}.

Definition emit (e : Event) (w : World) : World :=
  {| host := host w; repo := repo w; files := files w;
     environ := environ w; drawn := drawn w; log := log w ++ [e] |}.

Definition set_files (fs : gmap string string) (w : World) : World :=
  {| host := host w; repo := repo w; files := fs;
     environ := environ w; drawn := drawn w; log := log w |}.

Definition set_drawn (n : nat) (w : World) : World :=
  {| host := host w; repo := repo w; files := files w;
     environ := environ w; drawn := n; log := log w |}.

(** What was logged between [w] and a later world [w']. *)
Definition emitted (w w' : World) : list Event :=
  drop (length (log w)) (log w').

(** ** The monad: state passing, with Python exceptions *)

Inductive Result (A : Type) :=
| Ok (a : A)
| Raise (e : Exn).
Arguments Ok {A} a.
Arguments Raise {A} e.

Definition M (A : Type) : Type := World -> Result A * World.

Definition ret {A} (a : A) : M A := fun w => (Ok a, w).
Definition raise {A} (e : Exn) : M A := fun w => (Raise e, w).
Definition bind {A B} (c : M A) (k : A -> M B) : M B :=
  fun w => match c w with
           | (Ok a, w') => k a w'
           | (Raise e, w') => (Raise e, w')
           end.

Notation "x <- c ;; k" := (bind c (fun x => k))
  (at level 100, c at next level, right associativity).
Notation "c ;; k" := (bind c (fun _ => k))
  (at level 100, right associativity).

(** [for x in xs: body(x)] *)
Fixpoint for_each {A} (xs : list A) (body : A -> M unit) : M unit :=
  match xs with
  | [] => ret tt
  | x :: r => body x ;; for_each r body
  end.

(** ** Library calls *)

(** [typer.echo(message, err=err)] *)
Definition echo (message : string) (err : bool) : M unit :=
  fun w => (Ok tt, emit (Echo err message) w).

(** [subprocess.run(argv, check=check, env=env)].  The call is logged before
    its outcome is known.  A program that cannot be started raises
    [FileNotFoundError]; with [check], a status other than 0 raises
    [CalledProcessError]. *)
Definition subprocess_run (argv : list string) (check : bool)
    (env : option (gmap string string)) : M CompletedProcess :=
  fun w =>
    let w1 := emit (Spawn argv env) w in
    match spawn (host w) (log w) (files w) argv env with
    | None => (Raise (FileNotFoundError (hd "" argv)), w1)
    | Some (cp, fs) =>
        if check && negb (returncode cp =? 0)
        then (Raise (CalledProcessError (returncode cp) argv), set_files fs w1)
        else (Ok cp, set_files fs w1)
    end.

(** [git.Repo(".", search_parent_directories=True)] *)
Definition git_Repo : M Repo :=
  fun w => match repo w with
           | Some r => (Ok r, w)
           | None => (Raise InvalidGitRepositoryError, w)
           end.

(** [repo.rev_parse("HEAD")] *)
Definition rev_parse_HEAD (r : Repo) : M Commit :=
  match HEAD r with
  | Some commit => ret commit
  | None => raise BadName
  end.

(** [b.decode()] *)
Definition bytes_decode (b : string) : M (list Z) :=
  match PyStr.decode b with
  | Some text => ret text
  | None => raise UnicodeDecodeError
  end.

(** [Path.exists] and [os.remove] *)
Definition path_exists (p : string) : M bool :=
  fun w => (Ok (bool_decide (is_Some (files w !! p))), w).

Definition os_remove (p : string) : M unit :=
  fun w =>
    let w1 := emit (Unlink p) w in
    match unlink (host w) (log w) p with
    | Some IsADirectory => (Raise (IsADirectoryError p), w1)
    | Some PermissionDenied => (Raise (PermissionError p), w1)
    | None => (Ok tt, set_files (delete p (files w)) w1)
    end.

(** [os.environ] *)
Definition os_environ : M (gmap string string) :=
  fun w => (Ok (environ w), w).

(** [uuid.uuid4()]: each call draws the next 16 random bytes. *)
Definition uuid4 : M uuid.UUID :=
  fun w => (Ok (uuid.of_random (urandom16 (host w) (drawn w))),
            set_drawn (S (drawn w)) w).

(** [client.images.build(path, dockerfile, tag, buildargs)] *)
Definition client_images_build (path dockerfile tag : string)
    (buildargs : gmap string string) : M (Image * list string) :=
  fun w =>
    let w1 := emit (ImagesBuild path dockerfile tag buildargs) w in
    match images_build (host w) (log w) tag buildargs with
    | None => (Raise BuildError, w1)
    | Some r => (Ok r, w1)
    end.

(** [docker_client.api.push(repository, stream=True, decode=True)] *)
Definition client_api_push (repository : string) : M (list string) :=
  fun w => (Ok (api_push (host w) (log w) repository),
            emit (ApiPush repository) w).

(** ** The script *)

Definition create_project (remote : bool) : M unit :=
  let config_type := if remote then "remote" else "sandbox" in
  let config := PyStr.path_join ".flyte" (config_type +:+ "-config.yaml") in
  output <- subprocess_run
              ["flytectl"; "get"; "project"; PROJECT_NAME;
               "--config"; config] true None ;;
  text <- bytes_decode (stdout output) ;;
  if bool_decide (PyStr.strip text = []) then
    echo ("Creating project " +:+ PROJECT_NAME +:+ "...") false ;;
    subprocess_run
      ["flytectl"; "create"; "project";
       "--project"; PROJECT_NAME;
       "--name"; PROJECT_NAME;
       "--id"; PROJECT_NAME;
       "--description"; DESCRIPTION;
       "--config"; config] true None ;;
    ret tt
  else ret tt.

Definition get_version (fast : bool) : M string :=
  repo <- git_Repo ;;
  (if negb fast && is_dirty repo then
     echo ("Please commit git changes before building. If you haven't updated"
           +:+ " any system/python dependencies but want to deploy task/workflow "
           +:+ "code changes, use the --fast flag to do fast registration.")
          true ;;
     raise (Exit 1)
   else ret tt) ;;
  commit <- rev_parse_HEAD repo ;;
  ret (hexsha commit).

Definition sandbox_docker_build (tag : string) : M unit :=
  echo "Building image in Flyte sandbox..." false ;;
  subprocess_run
    ["flytectl"; "sandbox"; "exec"; "--";
     "docker"; "build"; "."; "--tag"; tag] true None ;;
  ret tt.

Definition docker_build (tag : string) (remote : bool) : M Image :=
  let config :=
    PyStr.path_join ".flyte" ((if remote then "remote" else "sandbox") +:+ ".config") in
  echo ("Building image: " +:+ tag +:+ "...") false ;;
  r <- client_images_build "." "Dockerfile" tag
         (<["image" := tag]> (<["config" := config]> ∅)) ;;
  for_each (snd r) (fun line => echo line false) ;;
  ret (fst r).

Definition docker_push (image : Image) : M unit :=
  match tags image with
  | [] => raise IndexError
  | t :: _ =>
      lines <- client_api_push t ;;
      for_each lines (fun line => echo line false)
  end.

Definition serialize (tag : string) (remote fast : bool) : M unit :=
  echo "Serializing Flyte workflows..." false ;;
  let config :=
    PyStr.path_join ".flyte" ((if remote then "remote" else "sandbox") +:+ ".config") in
  let package := "flyte-package.tgz" in
  present <- path_exists package ;;
  (if present then os_remove package else ret tt) ;;
  os_env <- os_environ ;;
  subprocess_run
    (["pyflyte"; "-c"; config;
      "--pkgs"; "destinations_similarity";
      "package"; "--force"; "--image"; tag]
     ++ (if fast then ["--fast"]
         else ["--in-container-source-path"; "/home/flyte"]))%list
    true
    (Some (os_env ∪ {["FLYTE_SANDBOX" := if negb remote then "1" else "0"]})) ;;
  ret tt.

Definition register (version : string) (remote fast : bool) (domain : string)
    : M unit :=
  echo "Registering Flyte workflows..." false ;;
  let config_type := if remote then "remote" else "sandbox" in
  let config := PyStr.path_join ".flyte" (config_type +:+ "-config.yaml") in
  version <- (if fast then
                u <- uuid4 ;;
                ret (version +:+ "-fast" +:+ PyStr.slice_to 7 (uuid.hex u))
              else ret version) ;;
  subprocess_run
    ["flytectl"; "-c"; config; "register"; "files";
     "--project"; PROJECT_NAME;
     "--domain"; domain;
     "--archive"; "flyte-package.tgz";
     "--force";
     "--version"; version] true None ;;
  echo ("Successfully registered version " +:+ version +:+ ".") false.

Definition main (remote fast : bool) (domain : string)
    (registry : option string) : M unit :=
  (if remote && fast then
     echo ("Fast registration is not enabled when deploying to remote. "
           +:+ "Please deploy your workflows without the --fast flag.") true
   else ret tt) ;;
  create_project remote ;;
  version <- get_version fast ;;
  let tag := get_tag version registry in
  (if negb fast then
     if remote then
       image <- docker_build tag remote ;;
       docker_push image
     else sandbox_docker_build tag
   else ret tt) ;;
  serialize tag remote fast ;;
  register version remote fast domain.

(** ** Worlds used to exercise the script *)

(** Every tool succeeds, prints nothing and writes nothing; the image built
    carries the requested tag; the random source counts up from zero. *)
Definition quiet_host : Host := {|
  spawn := fun _ fs _ _ => Some ({| returncode := 0; stdout := "" |}, fs);
  unlink := fun _ _ => None;
  images_build := fun _ tag _ => Some ({| tags := [tag] |}, ["Step 1/1"]);
  api_push := fun _ _ => ["pushed"];
  urandom16 := fun n => Z.of_nat n
|}.

(** A clean checkout at commit abc123 with an archive left by an earlier run. *)
Definition demo_world : World := {|
  host := quiet_host;
  repo := Some {| is_dirty := false; HEAD := Some {| hexsha := "abc123" |} |};
  files := {["flyte-package.tgz" := "archive of the previous run"]};
  environ := {["PATH" := "/usr/bin"]};
  drawn := 0;
  log := []
|}.

(** As [quiet_host], but pyflyte exits with status 1 and writes nothing. *)
Definition broken_packager_host : Host := {|
  spawn := fun _ fs argv _ =>
    Some ({| returncode := if bool_decide (hd "" argv = "pyflyte") then 1 else 0;
             stdout := "" |}, fs);
  unlink := unlink quiet_host;
  images_build := images_build quiet_host;
  api_push := api_push quiet_host;
  urandom16 := urandom16 quiet_host
|}.

Definition broken_packager_world : World := {|
  host := broken_packager_host;
  repo := repo demo_world;
  files := files demo_world;
  environ := environ demo_world;
  drawn := 0;
  log := []
|}.

(** A repository in which nothing has been committed yet; the tree is clean. *)
Definition unborn_world : World := {|
  host := quiet_host;
  repo := Some {| is_dirty := false; HEAD := None |};
  files := files demo_world;
  environ := environ demo_world;
  drawn := 0;
  log := []
|}.

(** As [quiet_host], but what sits at a path cannot be unlinked: it is a
    directory. *)
Definition directory_host : Host := {|
  spawn := spawn quiet_host;
  unlink := fun _ _ => Some IsADirectory;
  images_build := images_build quiet_host;
  api_push := api_push quiet_host;
  urandom16 := urandom16 quiet_host
|}.

Definition directory_world : World := {|
  host := directory_host;
  repo := repo demo_world;
  files := files demo_world;
  environ := environ demo_world;
  drawn := 0;
  log := []
|}.

(** The query answers a no-break space and a line feed, in UTF-8. *)
Definition blank_answer_host : Host := {|
  spawn := fun _ fs _ _ =>
    Some ({| returncode := 0;
             stdout := String (ascii_of_nat 194)
                         (String (ascii_of_nat 160)
                            (String (ascii_of_nat 10) EmptyString)) |}, fs);
  unlink := unlink quiet_host;
  images_build := images_build quiet_host;
  api_push := api_push quiet_host;
  urandom16 := urandom16 quiet_host
|}.

Definition blank_answer_world : World := {|
  host := blank_answer_host;
  repo := repo demo_world;
  files := files demo_world;
  environ := environ demo_world;
  drawn := 0;
  log := []
|}.

(** The same working tree at the same commit, without local changes. *)
Definition clean_checkout (w : World) : World :=
  {| host := host w;
     repo := (fun r => {| is_dirty := false; HEAD := HEAD r |}) <$> repo w;
     files := files w; environ := environ w; drawn := drawn w; log := log w |}.

Definition dirty_checkout (w : World) : World :=
  {| host := host w;
     repo := (fun r => {| is_dirty := true; HEAD := HEAD r |}) <$> repo w;
     files := files w; environ := environ w; drawn := drawn w; log := log w |}.

(** ** Observers on the log *)

(** Appending a whole list of events. *)
Definition emit_all (l : list Event) (w : World) : World :=
  fold_left (fun w e => emit e w) l w.

(** A call of [flytectl create project ...]. *)
Definition is_creation_call (e : Event) : bool :=
  match e with
  | Spawn argv _ => bool_decide (take 3 argv = ["flytectl"; "create"; "project"])
  | _ => false
  end.

Definition creation_calls (l : list Event) : nat :=
  length (List.filter is_creation_call l).

(** The actions of the image stage: the build delegated to the sandbox
    ([flytectl sandbox exec -- docker build . --tag TAG]), the local build
    through the docker client, and the push. *)
Inductive BuildAction :=
| SandboxBuild (tag : string)
| LocalBuild (tag : string)
| Push (repository : string).

Definition build_action (e : Event) : option BuildAction :=
  match e with
  | Spawn argv _ =>
      if bool_decide (take 8 argv
                      = ["flytectl"; "sandbox"; "exec"; "--";
                         "docker"; "build"; "."; "--tag"])
      then SandboxBuild <$> argv !! 8%nat
      else None
  | ImagesBuild _ _ tag _ => Some (LocalBuild tag)
  | ApiPush r => Some (Push r)
  | _ => None
  end.

Definition build_actions (l : list Event) : list BuildAction :=
  omap build_action l.

(** What the image stage does when it runs to its end, by target and flag. *)
Definition image_stage_done (remote fast : bool) (tag : string)
    (acts : list BuildAction) : Prop :=
  if fast then acts = []
  else if remote then exists r, acts = [LocalBuild tag; Push r]
  else acts = [SandboxBuild tag].

(** The actions of the image stage once it is reached, given what the docker
    daemon answers to the build of the tag: none when fast; for the sandbox
    the delegated build alone; for a remote target the local build, followed
    by the push of the first tag of the image if the build produced one. *)
Definition image_actions (remote fast : bool) (tag : string)
    (answer : option (Image * list string)) : list BuildAction :=
  if fast then []
  else if remote then
    LocalBuild tag
    :: match answer with
       | Some (image, _) =>
           match tags image with
           | t :: _ => [Push t]
           | [] => []
           end
       | None => []
       end
  else [SandboxBuild tag].

(** What the docker daemon answers when a remote deployment asks it, in the
    world [w], to build [tag]: the request follows the line that announces
    the build. *)
Definition build_answer (tag : string) (w : World)
    : option (Image * list string) :=
  images_build (host w)
    (log w ++ [Echo false ("Building image: " +:+ tag +:+ "...")]) tag
    (<["image" := tag]> (<["config" := ".flyte/remote.config"]> ∅)).

(** The version a [flytectl -c CONFIG register files ...] call publishes:
    the value of its closing [--version] option. *)
Definition registered_version (e : Event) : option string :=
  match e with
  | Spawn argv _ =>
      if bool_decide (take 2 argv = ["flytectl"; "-c"]
                      /\ take 2 (drop 3 argv) = ["register"; "files"]
                      /\ argv !! 12%nat = Some "--version")
      then argv !! 13%nat
      else None
  | _ => None
  end.

Definition registered_versions (l : list Event) : list string :=
  omap registered_version l.



(** [steps P c]: whatever the world, [c] leaves the working tree and the
    tools as they are and appends to the log only events satisfying [P]. *)
Definition steps {A} (P : Event -> Prop) (c : M A) : Prop :=
  forall w, exists l,
    log (snd (c w)) = log w ++ l /\ Forall P l
    /\ repo (snd (c w)) = repo w /\ host (snd (c w)) = host w.

(** Events that are no action of the image stage. *)
Definition no_build (e : Event) : Prop := build_action e = None.

(** ** The stages of [main], named

    [main] is one block in the source; its parts are named here so that they
    can be stated about.  [main_stages] below shows that [main] is their
    sequence. *)

(** The image stage: the conditional at the centre of [main]. *)
Definition image_stage (tag : string) (remote fast : bool) : M unit :=
  if negb fast then
    if remote then
      image <- docker_build tag remote ;;
      docker_push image
    else sandbox_docker_build tag
  else ret tt.

(** Everything [main] does after provisioning. *)
Definition after_provisioning (remote fast : bool) (domain : string)
    (registry : option string) : M unit :=
  version <- get_version fast ;;
  let tag := get_tag version registry in
  image_stage tag remote fast ;;
  serialize tag remote fast ;;
  register version remote fast domain.

(** The check of the flags at the head of [main]. *)
Definition flag_check (remote fast : bool) : M unit :=
  if remote && fast then
    echo ("Fast registration is not enabled when deploying to remote. "
          +:+ "Please deploy your workflows without the --fast flag.") true
  else ret tt.

(** ** The run as a pipeline *)

(** The tool calls of a run, by stage. *)
Inductive Stage :=
| Provision
| Build (a : BuildAction)
| Package (image : string)
| Publish (version : string).

(** A call of [flytectl get ...] or [flytectl create ...]. *)
Definition is_provisioning (argv : list string) : bool :=
  bool_decide (take 2 argv = ["flytectl"; "get"]
               \/ take 2 argv = ["flytectl"; "create"]).

(** The image a [pyflyte -c CONFIG --pkgs PKG package --force --image IMAGE]
    call binds the package to. *)
Definition packaged_image (e : Event) : option string :=
  match e with
  | Spawn argv _ =>
      if bool_decide (take 2 argv = ["pyflyte"; "-c"]
                      /\ argv !! 7%nat = Some "--image")
      then argv !! 8%nat
      else None
  | _ => None
  end.

Definition stage_of (e : Event) : option Stage :=
  match e with
  | Spawn argv _ =>
      if is_provisioning argv then Some Provision
      else match packaged_image e with
           | Some image => Some (Package image)
           | None =>
               match registered_version e with
               | Some v => Some (Publish v)
               | None => Build <$> build_action e
               end
           end
  | _ => Build <$> build_action e
  end.

Definition stages (l : list Event) : list Stage := omap stage_of l.

(** Events whose stage is that of the image stage, if any. *)
Definition image_stage_event (e : Event) : Prop :=
  stage_of e = Build <$> build_action e.

(** Events that publish no version. *)
Definition no_publish (e : Event) : Prop := registered_version e = None.

(** ** Frames *)

(** The tools leave the files as they find them. *)
Definition tools_write_nothing (h : Host) : Prop :=
  forall history fs argv env cp fs',
    spawn h history fs argv env = Some (cp, fs') -> fs' = fs.

(** Provided the tools write nothing, [c] keeps the tools and every file,
    except that the archive may be gone afterwards. *)
Definition only_unlinks_archive {A} (c : M A) : Prop :=
  forall w, tools_write_nothing (host w) ->
    host (snd (c w)) = host w
    /\ forall p,
         files (snd (c w)) !! p = files w !! p
         \/ (p = "flyte-package.tgz" /\ files (snd (c w)) !! p = None).

(** The world with the dirty flag of the working tree set to [b]. *)
Definition set_dirty (b : bool) (w : World) : World :=
  {| host := host w;
     repo := (fun r => {| is_dirty := b; HEAD := HEAD r |}) <$> repo w;
     files := files w; environ := environ w; drawn := drawn w; log := log w |}.

(** [c] neither reads nor writes the dirty flag. *)
Definition blind_to_dirt {A} (c : M A) : Prop :=
  forall b w, c (set_dirty b w) = (fst (c w), set_dirty b (snd (c w))).

(** flytectl cannot reach the cluster: every call of it exits with status 1;
    the other tools behave as in [quiet_host]. *)
Definition unreachable_cluster_host : Host := {|
  spawn := fun _ fs argv _ =>
    Some ({| returncode := if bool_decide (hd "" argv = "flytectl") then 1 else 0;
             stdout := "" |}, fs);
  unlink := unlink quiet_host;
  images_build := images_build quiet_host;
  api_push := api_push quiet_host;
  urandom16 := urandom16 quiet_host
|}.

Definition unreachable_cluster_world : World := {|
  host := unreachable_cluster_host;
  repo := repo demo_world;
  files := files demo_world;
  environ := environ demo_world;
  drawn := 0;
  log := []
|}.

(** The daemon reports the image built under an older tag first. *)
Definition retagging_host : Host := {|
  spawn := spawn quiet_host;
  unlink := unlink quiet_host;
  images_build := fun _ tag _ =>
    Some ({| tags := ["ghcr.io/patrickfbraz/flytelab:older"; tag] |}, []);
  api_push := api_push quiet_host;
  urandom16 := urandom16 quiet_host
|}.

Definition retagging_world : World := {|
  host := retagging_host;
  repo := repo demo_world;
  files := files demo_world;
  environ := environ demo_world;
  drawn := 0;
  log := []
|}.

(** The message [get_version] prints for a dirty tree. *)
Definition dirty_tree_message : string :=
  "Please commit git changes before building. If you haven't updated"
  +:+ " any system/python dependencies but want to deploy task/workflow "
  +:+ "code changes, use the --fast flag to do fast registration.".

(** * Properties *)

(** ** Strings *)

Lemma lower_app (a b : string) :
  PyStr.lower (a +:+ b) = PyStr.lower a +:+ PyStr.lower b.
Proof.
  induction a as [|c a IH]; simpl; [reflexivity | now rewrite IH].
Qed.

Lemma append_inj_r (p a b : string) : p +:+ a = p +:+ b -> a = b.
Proof.
  induction p as [|c p IH]; simpl; intros H; [exact H |].
  injection H as H. now apply IH.
Qed.

(** ** The image tag *)

(** C8: the tag is [{registry}/{image-name}:{project-name}-{version}], a
    function of the version and the registry alone; with version abc123 the
    override myregistry.io gives myregistry.io/flytelab:vamos-dalhe-abc123 and
    the default registry gives
    ghcr.io/patrickfbraz/flytelab:vamos-dalhe-abc123. *)
Theorem get_tag_format (version : string) (registry : option string) :
  get_tag version registry
  = default "ghcr.io/patrickfbraz" registry
      +:+ "/" +:+ "flytelab" +:+ ":" +:+ "vamos-dalhe" +:+ "-" +:+ version
  /\ get_tag "abc123" (Some "myregistry.io")
     = "myregistry.io/flytelab:vamos-dalhe-abc123"
  /\ get_tag "abc123" None
     = "ghcr.io/patrickfbraz/flytelab:vamos-dalhe-abc123".
Proof.
  split; [| split; reflexivity].
  destruct registry as [r|]; reflexivity.
Qed.

(** C4, as stated, fails: a registry supplied in mixed case reaches the tag
    unchanged, so the tag has no lower-cased registry component in front of
    [/flytelab:vamos-dalhe-abc123]. *)
Lemma get_tag_keeps_registry_case :
  get_tag "abc123" (Some "MyRegistry.IO")
  = "MyRegistry.IO/flytelab:vamos-dalhe-abc123"
  /\ ~ exists reg : string,
        get_tag "abc123" (Some "MyRegistry.IO")
        = reg +:+ "/" +:+ IMAGE_NAME +:+ ":" +:+ PROJECT_NAME +:+ "-" +:+ "abc123"
        /\ PyStr.lower reg = reg.
Proof.
  split; [reflexivity |].
  intros [reg [Htag Hlow]].
  pose proof (f_equal PyStr.lower Htag) as Hl.
  rewrite lower_app, Hlow in Hl.
  change (PyStr.lower ("/" +:+ IMAGE_NAME +:+ ":" +:+ PROJECT_NAME +:+ "-" +:+ "abc123"))
    with ("/" +:+ IMAGE_NAME +:+ ":" +:+ PROJECT_NAME +:+ "-" +:+ "abc123") in Hl.
  rewrite <- Htag in Hl.
  vm_compute in Hl. discriminate Hl.
Qed.

(** C4, amended: the tag is a function of its two arguments; a supplied
    registry is its leading component exactly as given, and only the default
    registry, used when none is supplied, is lower case. *)
Theorem get_tag_registry_verbatim (version : string) :
  (forall r : string,
     get_tag version (Some r) = r +:+ "/flytelab:vamos-dalhe-" +:+ version)
  /\ get_tag version None = REGISTRY +:+ "/flytelab:vamos-dalhe-" +:+ version
  /\ PyStr.lower REGISTRY = REGISTRY
  /\ REGISTRY = "ghcr.io/patrickfbraz".
Proof.
  split; [intros r | split; [| split]]; reflexivity.
Qed.

(** ** Version resolution *)

(** [get_version], case by case. *)
Lemma get_version_run fast w :
  get_version fast w
  = match repo w with
    | None => (Raise InvalidGitRepositoryError, w)
    | Some r =>
        if negb fast && is_dirty r
        then (Raise (Exit 1), emit (Echo true dirty_tree_message) w)
        else match HEAD r with
             | Some commit => (Ok (hexsha commit), w)
             | None => (Raise BadName, w)
             end
    end.
Proof.
  unfold get_version, bind, git_Repo, rev_parse_HEAD, echo, raise, ret.
  destruct (repo w) as [r|]; [| reflexivity].
  destruct (negb fast && is_dirty r); [reflexivity |].
  destruct (HEAD r); reflexivity.
Qed.

(** C2, as stated, fails: in a repository without a commit the tree is clean
    and [get_version], without the fast flag, raises all the same. *)
Lemma get_version_raises_on_clean_tree :
  repo unborn_world = Some {| is_dirty := false; HEAD := None |}
  /\ fst (get_version false unborn_world) = Raise BadName.
Proof. split; reflexivity. Qed.

(** C2, amended: in a repository whose HEAD resolves to a commit,
    [get_version] without the fast flag returns the hexsha of HEAD on a clean
    tree and, on a dirty tree, prints the message to the error stream and
    raises [typer.Exit(code=1)]; there it raises in no other case.  Outside a
    repository it raises [InvalidGitRepositoryError], and in a clean
    repository without a commit [BadName]. *)
Theorem get_version_checks_tree (w : World) :
  get_version false w
  = match repo w with
    | None => (Raise InvalidGitRepositoryError, w)
    | Some r =>
        if is_dirty r
        then (Raise (Exit 1),
              emit (Echo true
                      ("Please commit git changes before building. If you haven't "
                       +:+ "updated any system/python dependencies but want to deploy "
                       +:+ "task/workflow code changes, use the --fast flag to do "
                       +:+ "fast registration.")) w)
        else match HEAD r with
             | Some commit => (Ok (hexsha commit), w)
             | None => (Raise BadName, w)
             end
    end.
Proof.
  rewrite get_version_run.
  destruct (repo w) as [r|]; [| reflexivity].
  destruct (is_dirty r); reflexivity.
Qed.

(** C6, as stated, fails: with the fast flag [get_version] still raises in a
    repository without a commit. *)
Lemma get_version_fast_raises_without_commit :
  fst (get_version true unborn_world) = Raise BadName
  /\ fst (get_version true (dirty_checkout unborn_world)) = Raise BadName.
Proof. split; reflexivity. Qed.

(** C6, amended: in a repository whose HEAD resolves to a commit, whatever
    the state of the tree, [get_version] with the fast flag does not raise
    and returns the hexsha of HEAD, which is what a clean checkout of the same
    HEAD returns without the flag.  Where HEAD does not resolve it raises
    [BadName], and outside a repository [InvalidGitRepositoryError], dirty or
    not. *)
Theorem get_version_fast_ignores_tree (w : World) :
  get_version true w
  = match repo w with
    | None => (Raise InvalidGitRepositoryError, w)
    | Some r =>
        match HEAD r with
        | Some commit => (Ok (hexsha commit), w)
        | None => (Raise BadName, w)
        end
    end
  /\ fst (get_version true (dirty_checkout w))
     = fst (get_version false (clean_checkout w)).
Proof.
  split.
  - rewrite get_version_run. destruct (repo w) as [r|]; reflexivity.
  - rewrite !get_version_run. cbn [repo dirty_checkout clean_checkout].
    destruct (repo w) as [r|]; [| reflexivity].
    cbn. destruct (HEAD r); reflexivity.
Qed.

(** ** The log only grows *)

Lemma log_emit e w : log (emit e w) = log w ++ [e].
Proof. reflexivity. Qed.

Lemma log_emit_all l w : log (emit_all l w) = log w ++ l.
Proof.
  revert w. induction l as [|e l IH]; intros w; simpl.
  - now rewrite app_nil_r.
  - rewrite IH, log_emit, <- app_assoc. reflexivity.
Qed.

Lemma repo_emit_all l w : repo (emit_all l w) = repo w.
Proof. revert w. induction l as [|e l IH]; intros w; simpl; [|rewrite IH]; reflexivity. Qed.

Lemma host_emit_all l w : host (emit_all l w) = host w.
Proof. revert w. induction l as [|e l IH]; intros w; simpl; [|rewrite IH]; reflexivity. Qed.

Lemma emitted_app w w' l : log w' = log w ++ l -> emitted w w' = l.
Proof. intros H. unfold emitted. rewrite H. apply drop_app_length. Qed.

Lemma bind_unfold {A B} (c : M A) (k : A -> M B) w :
  bind c k w = match c w with
               | (Ok a, w') => k a w'
               | (Raise e, w') => (Raise e, w')
               end.
Proof. reflexivity. Qed.

Lemma ret_run {A} (a : A) w : ret a w = (Ok a, w).
Proof. reflexivity. Qed.

Lemma for_each_echo lines w :
  for_each lines (fun line => echo line false) w
  = (Ok tt, emit_all (map (Echo false) lines) w).
Proof.
  revert w. induction lines as [|x r IH]; intros w; simpl; [reflexivity |].
  rewrite bind_unfold. unfold echo at 1. apply IH.
Qed.

Section Steps.
Variable P : Event -> Prop.

Lemma steps_ret {A} (a : A) : steps P (ret a).
Proof. intros w. exists []. simpl. rewrite app_nil_r. auto. Qed.

Lemma steps_raise {A} e : steps P (@raise A e).
Proof. intros w. exists []. simpl. rewrite app_nil_r. auto. Qed.

Lemma steps_bind {A B} (c : M A) (k : A -> M B) :
  steps P c -> (forall a, steps P (k a)) -> steps P (bind c k).
Proof.
  intros Hc Hk w. rewrite bind_unfold.
  destruct (Hc w) as (l1 & Hl1 & HP1 & Hr1 & Hh1).
  destruct (c w) as [[a|e] w1]; simpl in *.
  - destruct (Hk a w1) as (l2 & Hl2 & HP2 & Hr2 & Hh2).
    exists (l1 ++ l2). rewrite Hl2, Hl1, app_assoc, Hr2, Hh2.
    repeat split; auto. apply Forall_app; auto.
  - exists l1. auto.
Qed.

Lemma steps_if {A} (b : bool) (c1 c2 : M A) :
  steps P c1 -> steps P c2 -> steps P (if b then c1 else c2).
Proof. destruct b; auto. Qed.

Lemma steps_one {A} (c : M A) e :
  P e ->
  (forall w, log (snd (c w)) = log w ++ [e]
             /\ repo (snd (c w)) = repo w /\ host (snd (c w)) = host w) ->
  steps P c.
Proof.
  intros He Hc w. destruct (Hc w) as (Hl & Hr & Hh).
  exists [e]. auto.
Qed.

Lemma steps_echo message err : P (Echo err message) -> steps P (echo message err).
Proof. intros He. apply (steps_one _ _ He). intros w. auto. Qed.

Lemma steps_subprocess_run argv check env :
  P (Spawn argv env) -> steps P (subprocess_run argv check env).
Proof.
  intros He. apply (steps_one _ _ He). intros w. unfold subprocess_run.
  destruct (spawn _ _ _ _ _) as [[cp fs]|]; [destruct (_ && _) |]; auto.
Qed.

Lemma steps_os_remove p : P (Unlink p) -> steps P (os_remove p).
Proof.
  intros He. apply (steps_one _ _ He). intros w. unfold os_remove.
  destruct (unlink (host w) (log w) p) as [[]|]; auto.
Qed.

Lemma steps_client_images_build path dockerfile tag buildargs :
  P (ImagesBuild path dockerfile tag buildargs) ->
  steps P (client_images_build path dockerfile tag buildargs).
Proof.
  intros He. apply (steps_one _ _ He). intros w. unfold client_images_build.
  destruct (images_build _ _ _ _); auto.
Qed.

Lemma steps_client_api_push r : P (ApiPush r) -> steps P (client_api_push r).
Proof. intros He. apply (steps_one _ _ He). intros w. auto. Qed.

Lemma steps_silent {A} (c : M A) :
  (forall w, log (snd (c w)) = log w
             /\ repo (snd (c w)) = repo w /\ host (snd (c w)) = host w) ->
  steps P c.
Proof.
  intros Hc w. destruct (Hc w) as (Hl & Hr & Hh).
  exists []. rewrite app_nil_r. auto.
Qed.

Lemma steps_for_each_echo lines :
  (forall line, P (Echo false line)) ->
  steps P (for_each lines (fun line => echo line false)).
Proof.
  intros He w. rewrite for_each_echo. simpl.
  exists (map (Echo false) lines).
  rewrite log_emit_all, repo_emit_all, host_emit_all.
  repeat split; auto. apply Forall_map, Forall_forall. intros; apply He.
Qed.

Lemma steps_bytes_decode b : steps P (bytes_decode b).
Proof.
  unfold bytes_decode. destruct (PyStr.decode b); [apply steps_ret | apply steps_raise].
Qed.

(** The four stages of [main] around the image stage log only echoes, the
    unlinking of the archive and calls of flytectl and pyflyte. *)
Hypothesis P_echo : forall err message, P (Echo err message).

Lemma steps_create_project remote :
  (forall argv, take 2 argv = ["flytectl"; "get"] \/ take 2 argv = ["flytectl"; "create"] ->
                P (Spawn argv None)) ->
  steps P (create_project remote).
Proof.
  intros Hs. unfold create_project.
  apply steps_bind; [apply steps_subprocess_run, Hs; auto |].
  intros output. apply steps_bind; [apply steps_bytes_decode |].
  intros text. apply steps_if; [| apply steps_ret].
  apply steps_bind; [apply steps_echo, P_echo |]. intros _.
  apply steps_bind; [apply steps_subprocess_run, Hs; auto |].
  intros _. apply steps_ret.
Qed.

Lemma steps_get_version fast : steps P (get_version fast).
Proof.
  intros w. rewrite get_version_run.
  destruct (repo w) as [r|] eqn:Hr;
    [destruct (negb fast && is_dirty r); [| destruct (HEAD r)] |].
  - exists [Echo true dirty_tree_message]. cbn. rewrite Hr. auto.
  - exists []. cbn. rewrite app_nil_r, Hr. auto.
  - exists []. cbn. rewrite app_nil_r, Hr. auto.
  - exists []. cbn. rewrite app_nil_r, Hr. auto.
Qed.

Lemma steps_serialize tag remote fast :
  P (Unlink "flyte-package.tgz") ->
  (forall argv env, take 2 argv = ["pyflyte"; "-c"] -> P (Spawn argv env)) ->
  steps P (serialize tag remote fast).
Proof.
  intros Hu Hs. unfold serialize.
  apply steps_bind; [apply steps_echo, P_echo |]. intros _.
  apply steps_bind; [apply steps_silent; auto |]. intros present.
  apply steps_bind;
    [apply steps_if; [apply steps_os_remove, Hu | apply steps_ret] |].
  intros _. apply steps_bind; [apply steps_silent; auto |]. intros os_env.
  apply steps_bind; [apply steps_subprocess_run, Hs; reflexivity |].
  intros _. apply steps_ret.
Qed.

Lemma steps_register version remote fast domain :
  (forall argv, take 2 argv = ["flytectl"; "-c"] -> P (Spawn argv None)) ->
  steps P (register version remote fast domain).
Proof.
  intros Hs. unfold register.
  apply steps_bind; [apply steps_echo, P_echo |]. intros _.
  apply steps_bind.
  - apply steps_if; [| apply steps_ret].
    apply steps_bind; [apply steps_silent; auto | intros u; apply steps_ret].
  - intros v. apply steps_bind; [apply steps_subprocess_run, Hs; reflexivity |].
    intros _. apply steps_echo, P_echo.
Qed.

End Steps.

(** Whatever a process does, the call is logged and only the files change. *)
Lemma subprocess_run_shape argv check env w :
  exists r fs,
    subprocess_run argv check env w
    = (r, set_files fs (emit (Spawn argv env) w)).
Proof.
  unfold subprocess_run.
  destruct (spawn _ _ _ _ _) as [[cp fs]|].
  - destruct (_ && _); eauto.
  - exists (Raise (FileNotFoundError (hd "" argv))), (files w). reflexivity.
Qed.

(** ** Project provisioning *)

(** C7: once the existence query has answered, [create_project] issues no
    creation call when the answer, decoded and stripped as the code reads it,
    is not empty, and exactly one when the query succeeded with an empty
    answer; this for both targets. *)
Theorem create_project_creates_once (remote : bool) (w : World)
    (cp : CompletedProcess) (fs : gmap string string) :
  spawn (host w) (log w) (files w)
    ["flytectl"; "get"; "project"; PROJECT_NAME; "--config";
     PyStr.path_join ".flyte"
       ((if remote then "remote" else "sandbox") +:+ "-config.yaml")]
    None = Some (cp, fs) ->
  let calls := creation_calls (emitted w (snd (create_project remote w))) in
  let result := PyStr.strip <$> PyStr.decode (stdout cp) in
  (result <> Some [] -> calls = 0%nat)
  /\ (returncode cp = 0 -> result = Some [] -> calls = 1%nat).
Proof.
  intros Hq calls result. subst calls result.
  assert (Hfirst : subprocess_run
            ["flytectl"; "get"; "project"; PROJECT_NAME; "--config";
             PyStr.path_join ".flyte"
               ((if remote then "remote" else "sandbox") +:+ "-config.yaml")]
            true None w
          = if negb (returncode cp =? 0)
            then (Raise (CalledProcessError (returncode cp)
                    ["flytectl"; "get"; "project"; PROJECT_NAME; "--config";
                     PyStr.path_join ".flyte"
                       ((if remote then "remote" else "sandbox")
                        +:+ "-config.yaml")]),
                  set_files fs (emit (Spawn
                    ["flytectl"; "get"; "project"; PROJECT_NAME; "--config";
                     PyStr.path_join ".flyte"
                       ((if remote then "remote" else "sandbox")
                        +:+ "-config.yaml")] None) w))
            else (Ok cp, set_files fs (emit (Spawn
                    ["flytectl"; "get"; "project"; PROJECT_NAME; "--config";
                     PyStr.path_join ".flyte"
                       ((if remote then "remote" else "sandbox")
                        +:+ "-config.yaml")] None) w)))
    by (unfold subprocess_run; rewrite Hq; reflexivity).
  unfold create_project. rewrite bind_unfold, Hfirst. clear Hfirst.
  split.
  - intros Hne. destruct (negb (returncode cp =? 0)).
    + erewrite emitted_app; [| reflexivity]. reflexivity.
    + rewrite bind_unfold. unfold bytes_decode.
      destruct (PyStr.decode (stdout cp)) as [text|].
      * unfold ret at 1. cbv iota beta.
        rewrite bool_decide_eq_false_2 by (intros E; apply Hne; cbn; now rewrite E).
        erewrite emitted_app; [| reflexivity]. reflexivity.
      * erewrite emitted_app; [| reflexivity]. reflexivity.
  - intros Hrc Hempty. rewrite Hrc. simpl negb. cbv iota.
    rewrite bind_unfold. unfold bytes_decode.
    destruct (PyStr.decode (stdout cp)) as [text|]; [| discriminate].
    injection Hempty as Hempty.
    unfold ret at 1. cbv iota beta.
    rewrite bool_decide_eq_true_2 by exact Hempty.
    rewrite bind_unfold. unfold echo at 1. rewrite bind_unfold.
    match goal with
    | |- context [subprocess_run ?a ?c ?e ?w0] =>
        destruct (subprocess_run_shape a c e w0) as (r & fs2 & ->)
    end.
    destruct r as [cp2|e];
      (erewrite emitted_app;
       [| simpl; rewrite <- ?app_assoc; reflexivity]); reflexivity.
Qed.

(** At the demonstration world the query answers nothing, and one creation
    call follows. *)
Lemma create_project_creates_once_witness :
  creation_calls (emitted demo_world (snd (create_project false demo_world)))
  = 1%nat.
Proof.
  refine (proj2 (create_project_creates_once false demo_world
                   {| returncode := 0; stdout := "" |} (files demo_world)
                   eq_refl) eq_refl eq_refl).
Defined.

(** An answer of blank characters only, here a no-break space and a line
    feed in UTF-8, is an empty answer: the project is created. *)
Example blank_answer_creates_project :
  PyStr.strip <$> PyStr.decode
                    (String (ascii_of_nat 194)
                       (String (ascii_of_nat 160)
                          (String (ascii_of_nat 10) EmptyString)))
  = Some []
  /\ creation_calls
       (emitted blank_answer_world (snd (create_project false blank_answer_world)))
     = 1%nat.
Proof. split; vm_compute; reflexivity. Qed.

(** ** Configuration files *)



Ltac run_subprocess :=
  match goal with
  | |- context [subprocess_run ?a ?c ?e ?w0] =>
      let r := fresh "r" in
      let fs := fresh "fs" in
      destruct (subprocess_run_shape a c e w0) as (r & fs & ->);
      destruct r as [?cp|?exn]
  end.

Ltac read_log :=
  erewrite emitted_app; [| simpl; rewrite <- ?app_assoc; reflexivity].


(** [serialize], as far as the call of pyflyte. *)
Lemma serialize_run tag remote fast w :
  serialize tag remote fast w
  = let packaging :=
      (subprocess_run
         (["pyflyte"; "-c";
           PyStr.path_join ".flyte"
             ((if remote then "remote" else "sandbox") +:+ ".config");
           "--pkgs"; "destinations_similarity";
           "package"; "--force"; "--image"; tag]
          ++ (if fast then ["--fast"]
              else ["--in-container-source-path"; "/home/flyte"]))
         true
         (Some (environ w
                ∪ {["FLYTE_SANDBOX" := if negb remote then "1" else "0"]})) ;;
       ret tt) in
    let w1 := emit (Echo false "Serializing Flyte workflows...") w in
    if bool_decide (is_Some (files w !! "flyte-package.tgz"))
    then match unlink (host w) (log w1) "flyte-package.tgz" with
         | Some IsADirectory =>
             (Raise (IsADirectoryError "flyte-package.tgz"),
              emit (Unlink "flyte-package.tgz") w1)
         | Some PermissionDenied =>
             (Raise (PermissionError "flyte-package.tgz"),
              emit (Unlink "flyte-package.tgz") w1)
         | None =>
             packaging (set_files (delete "flyte-package.tgz" (files w))
                          (emit (Unlink "flyte-package.tgz") w1))
         end
    else packaging w1.
Proof.
  unfold serialize. rewrite bind_unfold. unfold echo at 1.
  rewrite bind_unfold. unfold path_exists at 1.
  cbn [files emit]. cbv zeta.
  destruct (bool_decide (is_Some (files w !! "flyte-package.tgz")));
    [| reflexivity].
  rewrite bind_unfold. unfold os_remove. cbn [host log files emit].
  destruct (unlink (host w) _ "flyte-package.tgz") as [[]|]; reflexivity.
Qed.


(** ** Packaging *)

(** C10: [serialize] unlinks an archive left at [flyte-package.tgz] before it
    starts pyflyte.  So when the unlink goes through and pyflyte then fails
    without writing an archive, [serialize] raises [CalledProcessError] and
    the earlier archive is gone: no archive is left, not the previous one. *)
Theorem serialize_unlinks_before_packaging (tag : string) (remote fast : bool)
    (w : World) (old : string) :
  files w !! "flyte-package.tgz" = Some old ->
  (forall history, unlink (host w) history "flyte-package.tgz" = None) ->
  (forall history fs argv env, exists cp,
      spawn (host w) history fs ("pyflyte" :: argv) env = Some (cp, fs)
      /\ returncode cp <> 0) ->
  let r := serialize tag remote fast w in
  (exists code cmd, fst r = Raise (CalledProcessError code cmd))
  /\ files (snd r) !! "flyte-package.tgz" = None
  /\ exists argv env,
       emitted w (snd r)
       = [Echo false "Serializing Flyte workflows...";
          Unlink "flyte-package.tgz";
          Spawn ("pyflyte" :: argv) env].
Proof.
  intros Hold Hunlink Hfail r.
  edestruct Hfail as (cp & Hs & Hrc).
  assert (Hr : exists argv env,
             r = (Raise (CalledProcessError (returncode cp) ("pyflyte" :: argv)),
                  set_files (delete "flyte-package.tgz" (files w))
                    (emit_all [Echo false "Serializing Flyte workflows...";
                               Unlink "flyte-package.tgz";
                               Spawn ("pyflyte" :: argv) env] w))).
  { subst r. do 2 eexists. rewrite serialize_run. cbv zeta.
    rewrite bool_decide_eq_true_2 by (rewrite Hold; eauto).
    rewrite Hunlink, bind_unfold.
    unfold subprocess_run.
    cbn [host files log environ emit set_files app].
    rewrite Hs.
    apply Z.eqb_neq in Hrc. rewrite Hrc. reflexivity. }
  destruct Hr as (argv & env & ->).
  split; [simpl; eauto |]. split; [apply lookup_delete_eq |].
  exists argv, env. apply emitted_app. exact (log_emit_all _ w).
Qed.

(** At [broken_packager_world] an archive exists, it can be unlinked and
    pyflyte fails: after [serialize] nothing is left at [flyte-package.tgz]. *)
Lemma serialize_unlinks_before_packaging_witness :
  files broken_packager_world !! "flyte-package.tgz"
  = Some "archive of the previous run"
  /\ files (snd (serialize "t" false false broken_packager_world))
       !! "flyte-package.tgz" = None.
Proof.
  split; [reflexivity |].
  refine (proj1 (proj2 (serialize_unlinks_before_packaging "t" false false
                          broken_packager_world "archive of the previous run"
                          eq_refl (fun _ => eq_refl) _))).
  intros history fs argv env.
  exists {| returncode := 1; stdout := "" |}.
  split; [reflexivity | discriminate].
Defined.

(** ** The orchestration in [main] *)

Lemma steps_sandbox_docker_build P tag :
  (forall e, P e) -> steps P (sandbox_docker_build tag).
Proof.
  intros HP. unfold sandbox_docker_build.
  apply steps_bind; [apply steps_echo, HP |]. intros _.
  apply steps_bind; [apply steps_subprocess_run, HP |].
  intros _. apply steps_ret.
Qed.

Lemma steps_docker_build P tag remote :
  (forall e, P e) -> steps P (docker_build tag remote).
Proof.
  intros HP. unfold docker_build.
  apply steps_bind; [apply steps_echo, HP |]. intros _.
  apply steps_bind; [apply steps_client_images_build, HP |]. intros r.
  apply steps_bind; [apply steps_for_each_echo; intros; apply HP |].
  intros _. apply steps_ret.
Qed.

Lemma steps_docker_push P image :
  (forall e, P e) -> steps P (docker_push image).
Proof.
  intros HP. unfold docker_push.
  destruct (tags image) as [|t ts]; [apply steps_raise |].
  apply steps_bind; [apply steps_client_api_push, HP |]. intros lines.
  apply steps_for_each_echo. intros; apply HP.
Qed.

Lemma steps_after_provisioning P remote fast domain registry :
  (forall e, P e) -> steps P (after_provisioning remote fast domain registry).
Proof.
  intros HP. unfold after_provisioning, image_stage.
  apply steps_bind; [apply steps_get_version; intros; apply HP |].
  intros version. apply steps_bind.
  - apply steps_if; [| apply steps_ret].
    apply steps_if; [| apply steps_sandbox_docker_build, HP].
    apply steps_bind; [apply steps_docker_build, HP |].
    intros image. apply steps_docker_push, HP.
  - intros _. apply steps_bind.
    + apply steps_serialize; intros; apply HP.
    + intros _. apply steps_register; intros; apply HP.
Qed.

Lemma main_stages remote fast domain registry :
  main remote fast domain registry
  = (flag_check remote fast ;;
     create_project remote ;;
     after_provisioning remote fast domain registry).
Proof. reflexivity. Qed.

Lemma bind_assoc {A B C} (c : M A) (k : A -> M B) (h : B -> M C) w :
  bind (bind c k) h w = bind c (fun a => bind (k a) h) w.
Proof. unfold bind. destruct (c w) as [[a|e] w1]; reflexivity. Qed.

(** What a computation logs first stays first when more follows. *)
Lemma bind_log_prefix {A B} (c : M A) (k : A -> M B) w l :
  log (snd (c w)) = log w ++ l ->
  (forall a, steps (fun _ => True) (k a)) ->
  exists rest, log (snd (bind c k w)) = log w ++ l ++ rest.
Proof.
  intros Hl Hk. rewrite bind_unfold.
  destruct (c w) as [[a|e] w1]; simpl in *.
  - destruct (Hk a w1) as (l2 & Hl2 & _).
    exists l2. rewrite Hl2, Hl, app_assoc. reflexivity.
  - exists []. rewrite app_nil_r. exact Hl.
Qed.

(** C1 fails on the code: called with remote and fast both set, [main]
    prints the warning and then goes on.  In every world the next action is
    the provisioning query [flytectl get project]; and where the tools
    cooperate the run ends normally, having registered a fast version. *)
Theorem main_remote_fast_goes_on (domain : string) (registry : option string)
    (w : World) :
  (exists rest,
     emitted w (snd (main true true domain registry w))
     = Echo true
         ("Fast registration is not enabled when deploying to remote. "
          +:+ "Please deploy your workflows without the --fast flag.")
       :: Spawn ["flytectl"; "get"; "project"; "vamos-dalhe";
                 "--config"; ".flyte/remote-config.yaml"] None
       :: rest)
  /\ fst (main true true "development" None demo_world) = Ok tt
  /\ registered_versions (log (snd (main true true "development" None demo_world)))
     = ["abc123-fast0000000"].
Proof.
  split; [| split; vm_compute; reflexivity].
  rewrite main_stages, bind_unfold.
  set (w1 := emit (Echo true
                     ("Fast registration is not enabled when deploying to remote. "
                      +:+ "Please deploy your workflows without the --fast flag."))
                  w).
  change (flag_check true true w) with (@Ok unit tt, w1). cbv iota beta.
  assert (Hcp : exists rest1,
             log (snd (create_project true w1))
             = log w1 ++ [Spawn ["flytectl"; "get"; "project"; "vamos-dalhe";
                                 "--config"; ".flyte/remote-config.yaml"] None]
                 ++ rest1).
  { unfold create_project. apply bind_log_prefix.
    - destruct (subprocess_run_shape
                  ["flytectl"; "get"; "project"; PROJECT_NAME; "--config";
                   PyStr.path_join ".flyte" ("remote" +:+ "-config.yaml")]
                  true None w1) as (r & fs & ->).
      reflexivity.
    - intros output. apply steps_bind; [apply steps_bytes_decode |].
      intros text. apply steps_if; [| apply steps_ret].
      apply steps_bind; [apply steps_echo; exact I |]. intros _.
      apply steps_bind; [apply steps_subprocess_run; exact I |].
      intros _. apply steps_ret. }
  destruct Hcp as (rest1 & Hcp).
  destruct (bind_log_prefix (create_project true)
              (fun _ => after_provisioning true true domain registry)
              w1 _ Hcp) as (rest2 & Hall).
  { intros _. apply steps_after_provisioning. intros; exact I. }
  exists (rest1 ++ rest2).
  apply emitted_app. rewrite Hall. subst w1. rewrite log_emit.
  rewrite <- !app_assoc. reflexivity.
Qed.

(** ** The image stage *)

Lemma build_actions_app l1 l2 :
  build_actions (l1 ++ l2) = build_actions l1 ++ build_actions l2.
Proof. apply omap_app. Qed.

Lemma build_actions_none l : Forall no_build l -> build_actions l = [].
Proof.
  induction 1 as [|e l He _ IH]; [reflexivity |].
  unfold build_actions in *. simpl. rewrite He. exact IH.
Qed.

Lemma build_actions_echoes lines : build_actions (map (Echo false) lines) = [].
Proof. induction lines as [|x r IH]; [reflexivity | exact IH]. Qed.

Lemma no_build_spawn argv env :
  take 2 argv <> ["flytectl"; "sandbox"] -> no_build (Spawn argv env).
Proof.
  intros Hne. unfold no_build, build_action.
  case_bool_decide as H; [| reflexivity].
  exfalso. apply Hne.
  replace (take 2 argv) with (take 2 (take 8 argv))
    by (rewrite take_take; reflexivity).
  rewrite H. reflexivity.
Qed.

Lemma image_stage_done_exists remote fast tag :
  exists full, image_stage_done remote fast tag full.
Proof.
  unfold image_stage_done. destruct fast; [exists []; reflexivity |].
  destruct remote.
  - exists [LocalBuild tag; Push ""], "". reflexivity.
  - exists [SandboxBuild tag]. reflexivity.
Qed.

Ltac solve_log :=
  unfold raise, ret, echo; cbn [snd fst];
  repeat (rewrite ?log_emit_all; cbn [log emit set_files set_drawn]);
  rewrite <- ?app_assoc; reflexivity.

(** The image stage on its own: what it logs, by target and flag. *)
Lemma image_stage_actions tag remote fast w :
  exists l,
    log (snd (image_stage tag remote fast w)) = log w ++ l
    /\ (exists full, image_stage_done remote fast tag full
                     /\ build_actions l `prefix_of` full)
    /\ (fst (image_stage tag remote fast w) = Ok tt ->
        image_stage_done remote fast tag (build_actions l)).
Proof.
  remember (image_stage tag remote fast w) as r eqn:Hr.
  unfold image_stage in Hr. unfold image_stage_done.
  destruct fast; cbn [negb] in Hr.
  { subst r. exists []. simpl. rewrite app_nil_r. repeat split; eauto. }
  destruct remote.
  - rewrite bind_unfold in Hr. unfold docker_build in Hr.
    rewrite bind_unfold in Hr. unfold echo at 1 in Hr.
    rewrite bind_unfold in Hr. unfold client_images_build in Hr.
    destruct (images_build _ _ _ _) as [[img lines]|].
    + rewrite bind_unfold, for_each_echo in Hr. unfold ret at 1 in Hr.
      unfold docker_push in Hr. cbn [fst snd] in Hr.
      destruct (tags img) as [|t ts] eqn:Et; rewrite ?Et in Hr.
      * subst r. eexists.
        split; [solve_log |].
        rewrite !build_actions_app, build_actions_echoes.
        split; [| discriminate].
        exists [LocalBuild tag; Push ""]. split; [eauto |].
        exists [Push ""]. reflexivity.
      * rewrite bind_unfold in Hr. unfold client_api_push at 1 in Hr.
        rewrite for_each_echo in Hr. subst r. eexists.
        split; [solve_log |].
        rewrite !build_actions_app, !build_actions_echoes.
        split; [| intros _; exists t; reflexivity].
        exists [LocalBuild tag; Push t]. split; [eauto |]. exists []. reflexivity.
    + subst r. eexists.
      split; [solve_log |].
      split; [| discriminate].
      exists [LocalBuild tag; Push ""]. split; [eauto |].
      exists [Push ""]. reflexivity.
  - unfold sandbox_docker_build in Hr.
    rewrite bind_unfold in Hr. unfold echo at 1 in Hr.
    rewrite bind_unfold in Hr.
    match type of Hr with
    | context [subprocess_run ?a ?c ?e ?w0] =>
        destruct (subprocess_run_shape a c e w0) as (r0 & fs & Hrun)
    end.
    rewrite Hrun in Hr. clear Hrun.
    destruct r0 as [cp|exn]; subst r.
    + eexists. split; [solve_log |].
      split; [| intros _; reflexivity].
      exists [SandboxBuild tag]. split; [reflexivity |]. exists []. reflexivity.
    + eexists. split; [solve_log |].
      split; [| discriminate].
      exists [SandboxBuild tag]. split; [reflexivity |]. exists []. reflexivity.
Qed.

Lemma steps_before_image_stage remote fast :
  steps no_build (flag_check remote fast ;; create_project remote).
Proof.
  apply steps_bind.
  - unfold flag_check. apply steps_if; [apply steps_echo | apply steps_ret].
    reflexivity.
  - intros _. apply steps_create_project; [reflexivity |].
    intros argv [H|H]; apply no_build_spawn; rewrite H; discriminate.
Qed.

Lemma steps_after_image_stage tag version remote fast domain :
  steps no_build (serialize tag remote fast ;;
                  register version remote fast domain).
Proof.
  apply steps_bind.
  - apply steps_serialize; [reflexivity | reflexivity |].
    intros argv env H. apply no_build_spawn. rewrite H. discriminate.
  - intros _. apply steps_register; [reflexivity |].
    intros argv H. apply no_build_spawn. rewrite H. discriminate.
Qed.

(** The image stage on its own, given what the daemon answers. *)
Lemma image_stage_build_actions tag remote fast w :
  exists l,
    log (snd (image_stage tag remote fast w)) = log w ++ l
    /\ build_actions l = image_actions remote fast tag (build_answer tag w).
Proof.
  remember (image_stage tag remote fast w) as r eqn:Hr.
  unfold image_stage in Hr. unfold image_actions.
  destruct fast; cbn [negb] in Hr.
  { subst r. exists []. simpl. rewrite app_nil_r. split; reflexivity. }
  destruct remote.
  - rewrite bind_unfold in Hr. unfold docker_build in Hr.
    rewrite bind_unfold in Hr. unfold echo at 1 in Hr.
    rewrite bind_unfold in Hr. unfold client_images_build in Hr.
    change (images_build _ _ _ _) with (build_answer tag w) in Hr.
    destruct (build_answer tag w) as [[img lines]|].
    + rewrite bind_unfold, for_each_echo in Hr. unfold ret at 1 in Hr.
      unfold docker_push in Hr. cbn [fst snd] in Hr.
      destruct (tags img) as [|t ts] eqn:Et; rewrite ?Et in Hr.
      * subst r. eexists. split; [solve_log |].
        rewrite !build_actions_app, build_actions_echoes. reflexivity.
      * rewrite bind_unfold in Hr. unfold client_api_push at 1 in Hr.
        rewrite for_each_echo in Hr. subst r. eexists.
        split; [solve_log |].
        rewrite !build_actions_app, !build_actions_echoes. reflexivity.
    + subst r. eexists. split; [solve_log | reflexivity].
  - unfold sandbox_docker_build in Hr.
    rewrite bind_unfold in Hr. unfold echo at 1 in Hr.
    rewrite bind_unfold in Hr.
    match type of Hr with
    | context [subprocess_run ?a ?c ?e ?w0] =>
        destruct (subprocess_run_shape a c e w0) as (r0 & fs & Hrun)
    end.
    rewrite Hrun in Hr. clear Hrun.
    destruct r0 as [cp|exn]; subst r;
      (eexists; split; [solve_log | reflexivity]).
Qed.

(** C5: the image stage of [main] by target and flag.  Once provisioning has
    succeeded and the version is resolved, that is, once [main] reaches the
    image stage, the build and push actions of the run are exactly these,
    whatever packaging and registration do afterwards: none when fast is set;
    for the sandbox without fast the build delegated to the sandbox, and no
    local build or push; for a remote target without fast the local build of
    the tag followed by the push of the image it produced, under the first
    tag the daemon lists for it (no push when the build fails or the image
    carries no tag).  A run that does not reach the stage builds and pushes
    nothing. *)
Theorem main_image_stage (remote fast : bool) (domain : string)
    (registry : option string) (w : World) :
  let provisioning := (flag_check remote fast ;; create_project remote) w in
  build_actions (emitted w (snd (main remote fast domain registry w)))
  = match fst provisioning, fst (get_version fast (snd provisioning)) with
    | Ok _, Ok version =>
        let tag := get_tag version registry in
        image_actions remote fast tag (build_answer tag (snd provisioning))
    | _, _ => []
    end.
Proof.
  intros provisioning. subst provisioning.
  rewrite main_stages, <- bind_assoc, bind_unfold.
  destruct (steps_before_image_stage remote fast w)
    as (l0 & Hl0 & HP0 & Hr0 & Hh0).
  apply build_actions_none in HP0.
  destruct ((flag_check remote fast ;; create_project remote) w)
    as [[[]|e0] w1]; cbn [fst snd] in *.
  2:{ now rewrite (emitted_app _ _ _ Hl0). }
  unfold after_provisioning. rewrite bind_unfold.
  rewrite (get_version_run fast w1).
  destruct (repo w1) as [r|];
    [| cbn [fst snd]; now rewrite (emitted_app _ _ _ Hl0)].
  destruct (negb fast && is_dirty r).
  { cbn [fst snd].
    erewrite emitted_app; [| cbn [log emit]; rewrite Hl0, <- app_assoc; reflexivity].
    now rewrite build_actions_app, HP0. }
  destruct (HEAD r) as [commit|];
    [| cbn [fst snd]; now rewrite (emitted_app _ _ _ Hl0)].
  cbn [fst snd]. cbv zeta. set (tag := get_tag (hexsha commit) registry).
  rewrite bind_unfold.
  destruct (image_stage_build_actions tag remote fast w1) as (l2 & Hl2 & Hacts).
  destruct (image_stage tag remote fast w1) as [[[]|e2] w2]; cbn [snd] in Hl2.
  2:{ cbn [snd].
      erewrite emitted_app; [| rewrite Hl2, Hl0, <- app_assoc; reflexivity].
      now rewrite build_actions_app, HP0, Hacts. }
  destruct (steps_after_image_stage tag (hexsha commit) remote fast domain w2)
    as (l3 & Hl3 & HP3 & _).
  apply build_actions_none in HP3.
  erewrite emitted_app;
    [| rewrite Hl3, Hl2, Hl0, <- !app_assoc; reflexivity].
  now rewrite !build_actions_app, HP0, HP3, Hacts, app_nil_r.
Qed.

(** The daemon of [demo_world] tags the image as asked: a remote deployment
    there builds and then pushes the tag of HEAD, the sandbox deployment
    delegates the build, and a fast one does neither.  Where the daemon lists
    an older tag first, that one is pushed. *)
Example image_stage_runs :
  build_actions
    (log (snd (main true false "development" (Some "myregistry.io") demo_world)))
  = [LocalBuild "myregistry.io/flytelab:vamos-dalhe-abc123";
     Push "myregistry.io/flytelab:vamos-dalhe-abc123"]
  /\ build_actions (log (snd (main false false "development" None demo_world)))
     = [SandboxBuild "ghcr.io/patrickfbraz/flytelab:vamos-dalhe-abc123"]
  /\ build_actions (log (snd (main false true "development" None demo_world)))
     = []
  /\ build_actions (log (snd (main true false "development" None retagging_world)))
     = [LocalBuild "ghcr.io/patrickfbraz/flytelab:vamos-dalhe-abc123";
        Push "ghcr.io/patrickfbraz/flytelab:older"].
Proof. repeat split; vm_compute; reflexivity. Qed.

(** ** Fast registration *)

(** The hexadecimal rendering. *)

Lemma hex_fixed_length width x :
  String.length (PyStr.hex_fixed width x) = width.
Proof. induction width as [|k IH]; simpl; [reflexivity | now rewrite IH]. Qed.

Lemma hexdigit_is_hex d : PyStr.is_hexdigit (PyStr.hexdigit d) = true.
Proof.
  destruct d as [|p|p]; try reflexivity.
  do 4 (destruct p as [p|p|]; try reflexivity).
Qed.

Lemma hex_fixed_all_hex width x : PyStr.all_hex (PyStr.hex_fixed width x) = true.
Proof.
  induction width as [|k IH]; simpl; [reflexivity |].
  now rewrite hexdigit_is_hex, IH.
Qed.

(** The first [n] characters of a rendering are the rendering of the leading
    digits. *)
Lemma slice_to_hex_fixed n m x :
  PyStr.slice_to n (PyStr.hex_fixed (n + m) x)
  = PyStr.hex_fixed n (x / 16 ^ Z.of_nat m).
Proof.
  unfold PyStr.slice_to.
  induction n as [|k IH]; simpl.
  - destruct (PyStr.hex_fixed m x); reflexivity.
  - rewrite IH. f_equal. f_equal. f_equal.
    assert (Hm : 0 < 16 ^ Z.of_nat m) by (apply Z.pow_pos_nonneg; lia).
    assert (Hk : 0 < 16 ^ Z.of_nat k) by (apply Z.pow_pos_nonneg; lia).
    rewrite Z.div_div by lia.
    rewrite <- Z.pow_add_r by lia. f_equal. f_equal. lia.
Qed.

(** Distinct digits have distinct characters. *)
Lemma hexdigit_inj d e :
  0 <= d < 16 -> 0 <= e < 16 -> PyStr.hexdigit d = PyStr.hexdigit e -> d = e.
Proof.
  intros Hd He.
  assert (Hd' : d = 0 \/ d = 1 \/ d = 2 \/ d = 3 \/ d = 4 \/ d = 5 \/ d = 6
                \/ d = 7 \/ d = 8 \/ d = 9 \/ d = 10 \/ d = 11 \/ d = 12
                \/ d = 13 \/ d = 14 \/ d = 15) by lia.
  assert (He' : e = 0 \/ e = 1 \/ e = 2 \/ e = 3 \/ e = 4 \/ e = 5 \/ e = 6
                \/ e = 7 \/ e = 8 \/ e = 9 \/ e = 10 \/ e = 11 \/ e = 12
                \/ e = 13 \/ e = 14 \/ e = 15) by lia.
  clear Hd He.
  repeat (destruct Hd' as [-> | Hd']); try subst d;
    repeat (destruct He' as [-> | He']); try subst e;
    intros H; first [reflexivity | discriminate H].
Qed.

Lemma hex_fixed_inj width x y :
  PyStr.hex_fixed width x = PyStr.hex_fixed width y ->
  x mod 16 ^ Z.of_nat width = y mod 16 ^ Z.of_nat width.
Proof.
  induction width as [|k IH]; intros H.
  - simpl. now rewrite !Z.mod_1_r.
  - simpl PyStr.hex_fixed in H. injection H as Hd Hr.
    apply hexdigit_inj in Hd; try (apply Z.mod_pos_bound; lia).
    specialize (IH Hr).
    replace (Z.of_nat (S k)) with (Z.of_nat k + 1) by lia.
    rewrite Z.pow_add_r by lia. change (16 ^ 1) with 16.
    assert (H16 : 0 < 16 ^ Z.of_nat k) by (apply Z.pow_pos_nonneg; lia).
    rewrite !Z.rem_mul_r by lia. congruence.
Qed.

(** The version and variant fields lie below bit 80: the leading 28 bits of a
    version-4 UUID are the leading 28 of the 128 random bits. *)
Lemma of_random_leading_bits r :
  uuid.int (uuid.of_random r) / 2 ^ 100 = (r mod 2 ^ 128) / 2 ^ 100.
Proof.
  unfold uuid.of_random. cbn [uuid.int].
  rewrite <- !Z.shiftr_div_pow2 by lia.
  apply Z.bits_inj'. intros n Hn.
  rewrite !Z.shiftr_spec by lia.
  assert (Hc : forall c, 0 <= c -> Z.log2 c < 100 ->
                         Z.testbit c (n + 100) = false)
    by (intros c H0 Hlog; apply Z.bits_above_log2; lia).
  rewrite Z.lor_spec, Z.land_spec, Z.lor_spec, Z.land_spec.
  rewrite !Z.lnot_spec by lia.
  rewrite (Hc (Z.shiftl 0xc000 48)), (Hc (Z.shiftl 0x8000 48)),
    (Hc (Z.shiftl 0xf000 64)), (Hc (Z.shiftl 4 76))
    by (vm_compute; first [reflexivity | discriminate]).
  cbn [negb]. now rewrite !andb_true_r, !orb_false_r.
Qed.

(** The seven characters a fast registration appends: the leading seven
    hexadecimal digits of the random value drawn. *)
Lemma fast_suffix_leading r :
  PyStr.slice_to 7 (uuid.hex (uuid.of_random r))
  = PyStr.hex_fixed 7 ((r mod 2 ^ 128) / 2 ^ 100).
Proof.
  unfold uuid.hex.
  rewrite (slice_to_hex_fixed 7 25).
  change (16 ^ Z.of_nat 25) with (2 ^ 100).
  now rewrite of_random_leading_bits.
Qed.

Lemma fast_suffix_inj r1 r2 :
  PyStr.slice_to 7 (uuid.hex (uuid.of_random r1))
  = PyStr.slice_to 7 (uuid.hex (uuid.of_random r2))
  <-> (r1 mod 2 ^ 128) / 2 ^ 100 = (r2 mod 2 ^ 128) / 2 ^ 100.
Proof.
  rewrite !fast_suffix_leading. split; [| congruence].
  intros H. apply hex_fixed_inj in H.
  assert (Hb : forall r, 0 <= (r mod 2 ^ 128) / 2 ^ 100 < 16 ^ Z.of_nat 7).
  { intros r. change (16 ^ Z.of_nat 7) with (2 ^ 28).
    pose proof (Z.mod_pos_bound r (2 ^ 128) ltac:(lia)) as Hr.
    split; [apply Z.div_pos; lia |].
    apply Z.div_lt_upper_bound; [lia |].
    change (2 ^ 100 * 2 ^ 28) with (2 ^ 128). lia. }
  rewrite (Z.mod_small _ _ (Hb r1)), (Z.mod_small _ _ (Hb r2)) in H. exact H.
Qed.

Lemma registered_versions_app l1 l2 :
  registered_versions (l1 ++ l2)
  = registered_versions l1 ++ registered_versions l2.
Proof. apply omap_app. Qed.

(** One fast registration: the call it logs, and the draw it consumes. *)
Lemma register_fast_run version remote domain w :
  let v := version +:+ "-fast"
           +:+ PyStr.slice_to 7
                 (uuid.hex (uuid.of_random (urandom16 (host w) (drawn w)))) in
  let w' := snd (register version remote true domain w) in
  exists l,
    log w' = log w ++ l
    /\ registered_versions l = [v]
    /\ host w' = host w /\ drawn w' = S (drawn w).
Proof.
  intros v w'.
  assert (Hr : exists r fs,
             register version remote true domain w
             = (r.1, emit_all r.2
                     (set_files fs
                        (emit_all
                           [Echo false "Registering Flyte workflows...";
                            Spawn ["flytectl"; "-c";
                                   PyStr.path_join ".flyte"
                                     ((if remote then "remote" else "sandbox")
                                      +:+ "-config.yaml");
                                   "register"; "files";
                                   "--project"; PROJECT_NAME;
                                   "--domain"; domain;
                                   "--archive"; "flyte-package.tgz";
                                   "--force"; "--version"; v] None]
                           (set_drawn (S (drawn w)) w))))
               /\ registered_versions r.2 = []).
  { unfold register.
    rewrite bind_unfold. unfold echo at 1. rewrite bind_unfold.
    rewrite bind_unfold. unfold uuid4 at 1. unfold ret at 1.
    rewrite bind_unfold. fold v.
    match goal with
    | |- context [subprocess_run ?a ?c ?e ?w0] =>
        destruct (subprocess_run_shape a c e w0) as (r & fs & ->)
    end.
    destruct r as [cp|exn].
    - exists (Ok tt, [Echo false ("Successfully registered version " +:+ v +:+ ".")]), fs.
      split; reflexivity.
    - exists (Raise exn, []), fs. split; reflexivity. }
  destruct Hr as ([r tail] & fs & Hr & Htail). subst w'. rewrite Hr.
  cbn [snd fst] in *.
  eexists. split; [solve_log |].
  split; [| split; [rewrite host_emit_all | ]].
  - rewrite registered_versions_app, Htail, app_nil_r. reflexivity.
  - cbn [host set_files]. now rewrite host_emit_all.
  - clear. induction tail as [|e tail IH] using rev_ind; [reflexivity |].
    unfold emit_all in *. rewrite fold_left_app. simpl. exact IH.
Qed.

(** C3, as stated, fails: at [demo_world] the random source delivers 0 and
    then 1, two different values giving two different UUIDs, and the two fast
    registrations publish the same version. *)
Lemma fast_registrations_may_collide :
  urandom16 (host demo_world) 0 <> urandom16 (host demo_world) 1
  /\ uuid.of_random (urandom16 (host demo_world) 0)
     <> uuid.of_random (urandom16 (host demo_world) 1)
  /\ registered_versions
       (log (snd (register "abc123" false true "development"
                    (snd (register "abc123" false true "development"
                            demo_world)))))
     = ["abc123-fast0000000"; "abc123-fast0000000"].
Proof.
  split; [discriminate |]. split; [| vm_compute; reflexivity].
  vm_compute. discriminate.
Qed.

(** C3, amended: two consecutive fast registrations publish
    [version-fast] followed by seven hexadecimal characters each, the leading
    seven digits of a freshly drawn UUID; the two versions differ exactly when
    the leading 28 bits of the two random values drawn differ. *)
Theorem register_fast_versions (version : string) (remote : bool)
    (domain : string) (w : World) :
  let r1 := urandom16 (host w) (drawn w) in
  let r2 := urandom16 (host w) (S (drawn w)) in
  let s1 := PyStr.slice_to 7 (uuid.hex (uuid.of_random r1)) in
  let s2 := PyStr.slice_to 7 (uuid.hex (uuid.of_random r2)) in
  let w1 := snd (register version remote true domain w) in
  let w2 := snd (register version remote true domain w1) in
  registered_versions (emitted w w2)
  = [version +:+ "-fast" +:+ s1; version +:+ "-fast" +:+ s2]
  /\ (String.length s1 = 7%nat /\ PyStr.all_hex s1 = true)
  /\ (String.length s2 = 7%nat /\ PyStr.all_hex s2 = true)
  /\ (version +:+ "-fast" +:+ s1 <> version +:+ "-fast" +:+ s2
      <-> (r1 mod 2 ^ 128) / 2 ^ 100 <> (r2 mod 2 ^ 128) / 2 ^ 100).
Proof.
  intros r1 r2 s1 s2 w1 w2.
  destruct (register_fast_run version remote domain w)
    as (l1 & Hl1 & Hv1 & Hh1 & Hd1).
  destruct (register_fast_run version remote domain w1)
    as (l2 & Hl2 & Hv2 & Hh2 & Hd2).
  fold w1 in Hl1, Hh1, Hd1. fold w2 in Hl2.
  rewrite Hh1, Hd1 in Hv2.
  split.
  { erewrite emitted_app; [| rewrite Hl2, Hl1, <- app_assoc; reflexivity].
    rewrite registered_versions_app, Hv1, Hv2. reflexivity. }
  subst s1 s2.
  split; [| split].
  - rewrite fast_suffix_leading. split; [apply hex_fixed_length | apply hex_fixed_all_hex].
  - rewrite fast_suffix_leading. split; [apply hex_fixed_length | apply hex_fixed_all_hex].
  - rewrite <- fast_suffix_inj. split.
    + intros Hne Heq. apply Hne. now rewrite Heq.
    + intros Hne Heq. apply Hne.
      apply append_inj_r in Heq. now apply append_inj_r in Heq.
Qed.

(** ** The end-to-end scenarios, run at [demo_world] *)

Example sandbox_full_deployment :
  let r := main false false "development" None demo_world in
  fst r = Ok tt
  /\ build_actions (log (snd r))
     = [SandboxBuild "ghcr.io/patrickfbraz/flytelab:vamos-dalhe-abc123"]
  /\ registered_versions (log (snd r)) = ["abc123"].
Proof. vm_compute. auto. Qed.

Example remote_full_deployment :
  let r := main true false "development" (Some "myregistry.io") demo_world in
  fst r = Ok tt
  /\ build_actions (log (snd r))
     = [LocalBuild "myregistry.io/flytelab:vamos-dalhe-abc123";
        Push "myregistry.io/flytelab:vamos-dalhe-abc123"]
  /\ registered_versions (log (snd r)) = ["abc123"].
Proof. vm_compute. auto. Qed.

Example sandbox_fast_deployment :
  let r := main false true "development" None (dirty_checkout demo_world) in
  fst r = Ok tt
  /\ build_actions (log (snd r)) = []
  /\ registered_versions (log (snd r)) = ["abc123-fast0000000"].
Proof. vm_compute. auto. Qed.

Example dirty_tree_stops_full_deployment :
  let r := main false false "development" None (dirty_checkout demo_world) in
  fst r = Raise (Exit 1)
  /\ build_actions (log (snd r)) = []
  /\ registered_versions (log (snd r)) = [].
Proof. vm_compute. auto. Qed.

(** * Further properties of the script *)

(** ** The tag identifies the version and the registry *)

Lemma length_append (a b : string) :
  String.length (a +:+ b) = (String.length a + String.length b)%nat.
Proof. induction a as [|c a IH]; simpl; [reflexivity | now rewrite IH]. Qed.

Lemma append_inj_l (s a b : string) : a +:+ s = b +:+ s -> a = b.
Proof.
  revert b. induction a as [|c a IH]; intros [|d b] H.
  - reflexivity.
  - apply (f_equal String.length) in H.
    rewrite !length_append in H. simpl in H. lia.
  - apply (f_equal String.length) in H.
    rewrite !length_append in H. simpl in H. lia.
  - simpl in H. injection H as -> H. f_equal. now apply IH.
Qed.

(** X1: for one registry, different versions never share a tag; and for one
    version, different registry overrides never share a tag. *)
Theorem get_tag_injective :
  (forall registry v1 v2,
     get_tag v1 registry = get_tag v2 registry -> v1 = v2)
  /\ (forall version r1 r2,
        get_tag version (Some r1) = get_tag version (Some r2) -> r1 = r2).
Proof.
  split.
  - intros registry v1 v2 H. unfold get_tag in H.
    apply append_inj_r in H.
    exact (append_inj_r "/flytelab:vamos-dalhe-" v1 v2 H).
  - intros version r1 r2 H. unfold get_tag in H.
    exact (append_inj_l _ r1 r2 H).
Qed.

(** ** Provisioning stops at a failed query *)

(** X2: when the existence query cannot be started or exits with a status
    other than 0, [create_project] raises, and the query is all it has done:
    no project is created on the strength of a failed query. *)
Theorem create_project_query_failure (remote : bool) (w : World) :
  let query :=
    ["flytectl"; "get"; "project"; PROJECT_NAME; "--config";
     PyStr.path_join ".flyte"
       ((if remote then "remote" else "sandbox") +:+ "-config.yaml")] in
  (spawn (host w) (log w) (files w) query None = None
   \/ exists cp fs, spawn (host w) (log w) (files w) query None = Some (cp, fs)
                    /\ returncode cp <> 0) ->
  (exists e, fst (create_project remote w) = Raise e)
  /\ emitted w (snd (create_project remote w)) = [Spawn query None]
  /\ creation_calls (emitted w (snd (create_project remote w))) = 0%nat.
Proof.
  intros query Hq.
  assert (Hrun : exists e fs,
             create_project remote w
             = (Raise e, set_files fs (emit (Spawn query None) w))).
  { unfold create_project. rewrite bind_unfold. fold query.
    unfold subprocess_run.
    destruct Hq as [Hq | (cp & fs & Hq & Hrc)]; rewrite Hq.
    - exists (FileNotFoundError "flytectl"), (files w). reflexivity.
    - apply Z.eqb_neq in Hrc. rewrite Hrc.
      exists (CalledProcessError (returncode cp) query), fs. reflexivity. }
  destruct Hrun as (e & fs & ->).
  split; [exists e; reflexivity |].
  assert (Hl : emitted w (set_files fs (emit (Spawn query None) w))
               = [Spawn query None]) by (apply emitted_app; reflexivity).
  cbn [snd]. rewrite Hl. split; reflexivity.
Qed.

(** With the cluster out of reach, the sandbox provisioning stops at the
    query. *)
Lemma create_project_query_failure_witness :
  creation_calls
    (emitted unreachable_cluster_world
       (snd (create_project false unreachable_cluster_world))) = 0%nat.
Proof.
  refine (proj2 (proj2 (create_project_query_failure false
                          unreachable_cluster_world _))).
  right. exists {| returncode := 1; stdout := "" |},
                (files unreachable_cluster_world).
  split; [reflexivity | discriminate].
Defined.

(** ** Packaging: one pyflyte call, and its environment *)

(** X3: [serialize] starts pyflyte at most once, after unlinking the archive
    if there is one.  If that unlink is refused, [serialize] raises the error
    ([IsADirectoryError] or [PermissionError]) and pyflyte is not started.
    Otherwise pyflyte is started exactly once: the call binds the package to
    the tag given and closes with [--fast] when fast, with the in-container
    source path [/home/flyte] otherwise.  The environment it hands over is
    the caller's, with FLYTE_SANDBOX added as 1 for the sandbox and 0 for a
    remote target; a FLYTE_SANDBOX already set by the caller is passed on as
    it is. *)
Theorem serialize_pyflyte_call (tag : string) (remote fast : bool) (w : World) :
  let r := serialize tag remote fast w in
  let present := bool_decide (is_Some (files w !! "flyte-package.tgz")) in
  let refused :=
    if present
    then unlink (host w)
           (log w ++ [Echo false "Serializing Flyte workflows..."])
           "flyte-package.tgz"
    else None in
  match refused with
  | Some why =>
      fst r = Raise (match why with
                     | IsADirectory => IsADirectoryError "flyte-package.tgz"
                     | PermissionDenied => PermissionError "flyte-package.tgz"
                     end)
      /\ emitted w (snd r)
         = [Echo false "Serializing Flyte workflows...";
            Unlink "flyte-package.tgz"]
  | None =>
      exists argv env,
        emitted w (snd r)
        = [Echo false "Serializing Flyte workflows..."]
          ++ (if present then [Unlink "flyte-package.tgz"] else [])
          ++ [Spawn ("pyflyte" :: argv) (Some env)]
        /\ take 2 (drop 6 argv) = ["--image"; tag]
        /\ drop 8 argv = (if fast then ["--fast"]
                          else ["--in-container-source-path"; "/home/flyte"])
        /\ env !! "FLYTE_SANDBOX"
           = Some (default (if remote then "0" else "1")
                     (environ w !! "FLYTE_SANDBOX"))
        /\ forall k, k <> "FLYTE_SANDBOX" -> env !! k = environ w !! k
  end.
Proof.
  intros r present refused. subst r present refused.
  rewrite serialize_run. cbv zeta. cbn [log emit].
  assert (Hcall :
    forall w0 : World,
      environ w0 = environ w ->
      exists argv env,
        (exists r fs,
           (subprocess_run
              (["pyflyte"; "-c";
                PyStr.path_join ".flyte"
                  ((if remote then "remote" else "sandbox") +:+ ".config");
                "--pkgs"; "destinations_similarity";
                "package"; "--force"; "--image"; tag]
               ++ (if fast then ["--fast"]
                   else ["--in-container-source-path"; "/home/flyte"]))
              true
              (Some (environ w
                     ∪ {["FLYTE_SANDBOX" := if negb remote then "1" else "0"]})) ;;
            ret tt) w0
           = (r, set_files fs (emit (Spawn ("pyflyte" :: argv) (Some env)) w0)))
        /\ take 2 (drop 6 argv) = ["--image"; tag]
        /\ drop 8 argv = (if fast then ["--fast"]
                          else ["--in-container-source-path"; "/home/flyte"])
        /\ env !! "FLYTE_SANDBOX"
           = Some (default (if remote then "0" else "1")
                     (environ w !! "FLYTE_SANDBOX"))
        /\ forall k, k <> "FLYTE_SANDBOX" -> env !! k = environ w !! k).
  { intros w0 _.
    exists (["-c";
             PyStr.path_join ".flyte"
               ((if remote then "remote" else "sandbox") +:+ ".config");
             "--pkgs"; "destinations_similarity";
             "package"; "--force"; "--image"; tag]
            ++ (if fast then ["--fast"]
                else ["--in-container-source-path"; "/home/flyte"])),
           (environ w ∪ {["FLYTE_SANDBOX" := if negb remote then "1" else "0"]}).
    split; [| split; [reflexivity | split; [reflexivity | split]]].
    - rewrite bind_unfold.
      match goal with
      | |- context [subprocess_run ?a ?c ?e ?w1] =>
          destruct (subprocess_run_shape a c e w1) as (r & fs & ->)
      end.
      destruct r as [cp|exn]; do 2 eexists; reflexivity.
    - rewrite lookup_union, lookup_singleton_eq.
      destruct (environ w !! "FLYTE_SANDBOX"); destruct remote; reflexivity.
    - intros k Hk. rewrite lookup_union, lookup_singleton_ne by congruence.
      destruct (environ w !! k); reflexivity. }
  destruct (bool_decide (is_Some (files w !! "flyte-package.tgz"))).
  - destruct (unlink (host w) _ "flyte-package.tgz") as [[]|].
    + split; [reflexivity | apply emitted_app; solve_log].
    + split; [reflexivity | apply emitted_app; solve_log].
    + match goal with
      | |- context [_ (set_files ?f ?w0)] =>
          destruct (Hcall (set_files f w0) eq_refl)
            as (argv & env & (r & fs & ->) & Hrest)
      end.
      exists argv, env. split; [apply emitted_app; solve_log | exact Hrest].
  - destruct (Hcall (emit (Echo false "Serializing Flyte workflows...") w) eq_refl)
      as (argv & env & (r & fs & ->) & Hrest).
    exists argv, env. split; [apply emitted_app; solve_log | exact Hrest].
Qed.

(** In [directory_world] a directory sits at the place of the archive:
    [serialize] raises [IsADirectoryError] and pyflyte is not started. *)
Example serialize_stops_at_refused_unlink :
  let r := serialize "t" false false directory_world in
  fst r = Raise (IsADirectoryError "flyte-package.tgz")
  /\ emitted directory_world (snd r)
     = [Echo false "Serializing Flyte workflows...";
        Unlink "flyte-package.tgz"].
Proof. vm_compute. split; reflexivity. Qed.

(** ** Registration: the version published and the report *)

(** [register], as far as the call of flytectl. *)
Lemma register_run (version : string) (remote fast : bool) (domain : string)
    (w : World) :
  let v := if fast
           then version +:+ "-fast"
                +:+ PyStr.slice_to 7
                      (uuid.hex (uuid.of_random (urandom16 (host w) (drawn w))))
           else version in
  register version remote fast domain w
  = (subprocess_run
       ["flytectl"; "-c";
        PyStr.path_join ".flyte"
          ((if remote then "remote" else "sandbox") +:+ "-config.yaml");
        "register"; "files";
        "--project"; PROJECT_NAME;
        "--domain"; domain;
        "--archive"; "flyte-package.tgz";
        "--force";
        "--version"; v] true None ;;
     echo ("Successfully registered version " +:+ v +:+ ".") false)
      (set_drawn (if fast then S (drawn w) else drawn w)
         (emit (Echo false "Registering Flyte workflows...") w)).
Proof.
  intros v. subst v. unfold register.
  rewrite bind_unfold. unfold echo at 1. rewrite bind_unfold.
  destruct fast; reflexivity.
Qed.

(** X4: [register] calls flytectl once and publishes the version it was
    given, or, when fast, that version followed by [-fast] and seven
    characters of a fresh UUID.  The line "Successfully registered version
    ..." names the version published and is printed if and only if the call
    succeeded; a random value is drawn only when fast. *)
Theorem register_outcome (version : string) (remote fast : bool)
    (domain : string) (w : World) :
  let v := if fast
           then version +:+ "-fast"
                +:+ PyStr.slice_to 7
                      (uuid.hex (uuid.of_random (urandom16 (host w) (drawn w))))
           else version in
  let r := register version remote fast domain w in
  (exists argv,
     emitted w (snd r)
     = [Echo false "Registering Flyte workflows...";
        Spawn ("flytectl" :: argv) None]
       ++ match fst r with
          | Ok _ => [Echo false ("Successfully registered version " +:+ v +:+ ".")]
          | Raise _ => []
          end)
  /\ registered_versions (emitted w (snd r)) = [v]
  /\ drawn (snd r) = if fast then S (drawn w) else drawn w.
Proof.
  intros v r. subst r.
  rewrite (register_run version remote fast domain w). fold v.
  rewrite bind_unfold.
  match goal with
  | |- context [subprocess_run ?a ?c ?e ?w0] =>
      destruct (subprocess_run_shape a c e w0) as (r & fs & ->)
  end.
  destruct r as [cp|exn].
  - unfold echo. cbn [fst snd].
    split; [eexists; apply emitted_app; cbn [log emit set_files set_drawn];
            rewrite <- ?app_assoc; reflexivity |].
    split; [| reflexivity].
    erewrite emitted_app;
      [| cbn [log emit set_files set_drawn]; rewrite <- ?app_assoc; reflexivity].
    reflexivity.
  - cbn [fst snd].
    split; [eexists; apply emitted_app; cbn [log emit set_files set_drawn];
            rewrite <- ?app_assoc; reflexivity |].
    split; [| reflexivity].
    erewrite emitted_app;
      [| cbn [log emit set_files set_drawn]; rewrite <- ?app_assoc; reflexivity].
    reflexivity.
Qed.

(** ** The local build and the push *)

Lemma echo_run message err w :
  echo message err w = (Ok tt, emit (Echo err message) w).
Proof. reflexivity. Qed.

Lemma client_api_push_run repository w :
  client_api_push repository w
  = (Ok (api_push (host w) (log w) repository), emit (ApiPush repository) w).
Proof. reflexivity. Qed.

Ltac run_script :=
  repeat first
    [ rewrite bind_unfold
    | rewrite echo_run
    | rewrite client_api_push_run
    | rewrite for_each_echo
    | progress cbv beta iota
    | progress cbn [fst snd] ].

(** X5: the image stage of a remote, full deployment, given what the docker
    daemon answers to the build.  If the build fails, [BuildError] is raised,
    no line of the build log is printed and nothing is pushed.  If it
    succeeds, the build log is printed and the first tag the daemon lists for
    the image is pushed, whichever it is; an image listed without tags
    raises [IndexError] and nothing is pushed. *)
Theorem remote_image_stage (tag : string) (w : World)
    (answer : option (Image * list string)) :
  (forall history buildargs,
     images_build (host w) history tag buildargs = answer) ->
  let r := image_stage tag true false w in
  match answer with
  | None => fst r = Raise BuildError
  | Some (image, _) => tags image = [] -> fst r = Raise IndexError
  end
  /\ exists buildargs pushed,
       emitted w (snd r)
       = [Echo false ("Building image: " +:+ tag +:+ "...");
          ImagesBuild "." "Dockerfile" tag buildargs]
         ++ match answer with
            | None => []
            | Some (image, build_logs) =>
                map (Echo false) build_logs
                ++ match tags image with
                   | [] => []
                   | t :: _ => ApiPush t :: map (Echo false) pushed
                   end
            end.
Proof.
  intros Hbuild r. subst r.
  unfold image_stage. cbn [negb]. unfold docker_build.
  run_script. unfold client_images_build. rewrite Hbuild.
  destruct answer as [[image build_logs]|].
  - run_script. unfold ret at 1 2. run_script. unfold docker_push.
    destruct (tags image) as [|t ts].
    + split; [reflexivity |].
      exists (<["image" := tag]>
                (<["config" := PyStr.path_join ".flyte" ("remote" +:+ ".config")]> ∅)), [].
      apply emitted_app. rewrite ?app_nil_r. solve_log.
    + run_script. split; [discriminate |].
      eexists. eexists. apply emitted_app. rewrite ?app_nil_r. solve_log.
  - split; [reflexivity |].
    exists (<["image" := tag]>
              (<["config" := PyStr.path_join ".flyte" ("remote" +:+ ".config")]> ∅)), [].
    apply emitted_app. rewrite ?app_nil_r. solve_log.
Qed.

(** The daemon of [retagging_world] lists an older tag first: that one is
    pushed. *)
Lemma remote_image_stage_witness :
  build_actions
    (emitted retagging_world (snd (image_stage "r/flytelab:new" true false
                                     retagging_world)))
  = [LocalBuild "r/flytelab:new"; Push "ghcr.io/patrickfbraz/flytelab:older"].
Proof.
  destruct (remote_image_stage "r/flytelab:new" retagging_world
              (Some ({| tags := ["ghcr.io/patrickfbraz/flytelab:older";
                                 "r/flytelab:new"] |}, []))
              (fun _ _ => eq_refl)) as (_ & buildargs & pushed & ->).
  cbn [tags map app].
  match goal with
  | |- build_actions (?a :: ?b :: ?c :: ?l) = ?rhs =>
      change (build_actions ([a; b; c] ++ l) = rhs)
  end.
  rewrite build_actions_app, build_actions_echoes. reflexivity.
Defined.

(** ** The run of [main], stage by stage *)

Lemma steps_emitted {A} P (c : M A) w :
  steps P c -> log (snd (c w)) = log w ++ emitted w (snd (c w)).
Proof.
  intros H. destruct (H w) as (l & Hl & _).
  rewrite (emitted_app _ _ _ Hl). exact Hl.
Qed.

Lemma emitted_trans w w1 w2 :
  log w1 = log w ++ emitted w w1 ->
  log w2 = log w1 ++ emitted w1 w2 ->
  emitted w w2 = emitted w w1 ++ emitted w1 w2
  /\ log w2 = log w ++ emitted w w2.
Proof.
  intros H1 H2.
  assert (H : log w2 = log w ++ emitted w w1 ++ emitted w1 w2)
    by (rewrite H2, H1 at 1; rewrite <- app_assoc; reflexivity).
  rewrite (emitted_app _ _ _ H). split; [reflexivity | exact H].
Qed.

(** [main] is provisioning, then the resolution of the version with its check
    of the tree, then the image stage, packaging and registration, all on the
    version and tag of HEAD. *)
Lemma main_sequence remote fast domain registry w :
  main remote fast domain registry w
  = match (flag_check remote fast ;; create_project remote) w with
    | (Raise e, w1) => (Raise e, w1)
    | (Ok _, w1) =>
        match repo w with
        | None => (Raise InvalidGitRepositoryError, w1)
        | Some r =>
            if negb fast && is_dirty r
            then (Raise (Exit 1), emit (Echo true dirty_tree_message) w1)
            else match HEAD r with
                 | None => (Raise BadName, w1)
                 | Some commit =>
                     (image_stage (get_tag (hexsha commit) registry) remote fast ;;
                      serialize (get_tag (hexsha commit) registry) remote fast ;;
                      register (hexsha commit) remote fast domain) w1
                 end
        end
    end.
Proof.
  rewrite main_stages, <- bind_assoc, bind_unfold.
  destruct (steps_before_image_stage remote fast w) as (l0 & _ & _ & Hr0 & _).
  destruct ((flag_check remote fast ;; create_project remote) w)
    as [[[]|e0] w1]; [| reflexivity].
  cbn [snd] in Hr0. unfold after_provisioning.
  rewrite bind_unfold, get_version_run, Hr0.
  destruct (repo w) as [r|]; [| reflexivity].
  destruct (negb fast && is_dirty r); [reflexivity |].
  destruct (HEAD r); reflexivity.
Qed.

Lemma stages_app l1 l2 : stages (l1 ++ l2) = stages l1 ++ stages l2.
Proof. apply omap_app. Qed.

Lemma stages_image_events l :
  Forall image_stage_event l -> stages l = Build <$> build_actions l.
Proof.
  induction 1 as [|e l He _ IH]; [reflexivity |].
  unfold stages, build_actions in *. cbn [omap list_omap].
  rewrite He. destruct (build_action e); cbn; now rewrite IH.
Qed.

Lemma steps_image_stage P tag remote fast :
  (forall err message, P (Echo err message)) ->
  (forall path dockerfile t buildargs, P (ImagesBuild path dockerfile t buildargs)) ->
  (forall r, P (ApiPush r)) ->
  P (Spawn ["flytectl"; "sandbox"; "exec"; "--";
            "docker"; "build"; "."; "--tag"; tag] None) ->
  steps P (image_stage tag remote fast).
Proof.
  intros He Hb Hp Hs. unfold image_stage.
  apply steps_if; [| apply steps_ret].
  apply steps_if.
  - apply steps_bind.
    + unfold docker_build.
      apply steps_bind; [apply steps_echo, He |]. intros _.
      apply steps_bind; [apply steps_client_images_build, Hb |]. intros r.
      apply steps_bind; [apply steps_for_each_echo; intros; apply He |].
      intros _. apply steps_ret.
    + intros image. unfold docker_push.
      destruct (tags image) as [|t ts]; [apply steps_raise |].
      apply steps_bind; [apply steps_client_api_push, Hp |]. intros lines.
      apply steps_for_each_echo. intros; apply He.
  - unfold sandbox_docker_build.
    apply steps_bind; [apply steps_echo, He |]. intros _.
    apply steps_bind; [apply steps_subprocess_run, Hs |].
    intros _. apply steps_ret.
Qed.

Lemma create_project_stages remote w :
  stages (emitted w (snd (create_project remote w))) = [Provision]
  \/ stages (emitted w (snd (create_project remote w))) = [Provision; Provision].
Proof.
  unfold create_project. rewrite bind_unfold. run_subprocess.
  - rewrite bind_unfold. unfold bytes_decode.
    destruct (PyStr.decode (stdout cp)) as [text|];
      [| left; read_log; reflexivity].
    rewrite ret_run. cbv iota beta.
    destruct (bool_decide _).
    + right. cbv iota. rewrite bind_unfold. unfold echo at 1.
      rewrite bind_unfold.
      run_subprocess; read_log; reflexivity.
    + left. read_log. reflexivity.
  - left. read_log. reflexivity.
Qed.

Lemma provisioning_stages remote fast w :
  stages (emitted w (snd ((flag_check remote fast ;; create_project remote) w)))
  = [Provision]
  \/ stages (emitted w (snd ((flag_check remote fast ;; create_project remote) w)))
     = [Provision; Provision].
Proof.
  rewrite bind_unfold. unfold flag_check.
  destruct (remote && fast); [| exact (create_project_stages remote w)].
  rewrite echo_run. cbv beta iota.
  set (w0 := emit _ w).
  assert (Hw0 : emitted w w0 = [Echo true
             ("Fast registration is not enabled when deploying to remote. "
              +:+ "Please deploy your workflows without the --fast flag.")])
    by (apply emitted_app; reflexivity).
  assert (Hg0 : log w0 = log w ++ emitted w w0) by (rewrite Hw0; reflexivity).
  assert (Hg : log (snd (create_project remote w0))
               = log w0 ++ emitted w0 (snd (create_project remote w0))).
  { apply (steps_emitted (fun _ => True)).
    apply steps_create_project; intros; exact I. }
  destruct (emitted_trans w w0 _ Hg0 Hg) as [-> _].
  rewrite Hw0, stages_app.
  exact (create_project_stages remote w0).
Qed.

Lemma serialize_stages tag remote fast w :
  stages (emitted w (snd (serialize tag remote fast w))) = [Package tag]
  \/ (stages (emitted w (snd (serialize tag remote fast w))) = []
      /\ exists e, fst (serialize tag remote fast w) = Raise e).
Proof.
  rewrite serialize_run. cbv zeta.
  destruct (bool_decide (is_Some (files w !! "flyte-package.tgz")));
    [destruct (unlink (host w) _ "flyte-package.tgz") as [[]|] |];
    try (right; cbn [fst snd]; split; [read_log; reflexivity | eauto]);
    left; rewrite bind_unfold;
    match goal with
    | |- context [subprocess_run ?a ?c ?e ?w0] =>
        destruct (subprocess_run_shape a c e w0) as (r & fs & ->)
    end;
    destruct r as [cp|exn];
    (erewrite emitted_app; [| solve_log]); reflexivity.
Qed.

Lemma register_stages (version : string) (remote fast : bool)
    (domain : string) (w : World) :
  stages (emitted w (snd (register version remote fast domain w)))
  = [Publish (if fast
              then version +:+ "-fast"
                   +:+ PyStr.slice_to 7
                         (uuid.hex (uuid.of_random
                                      (urandom16 (host w) (drawn w))))
              else version)].
Proof.
  rewrite (register_run version remote fast domain w), bind_unfold.
  match goal with
  | |- context [subprocess_run ?a ?c ?e ?w0] =>
      destruct (subprocess_run_shape a c e w0) as (r & fs & ->)
  end.
  destruct r as [cp|exn];
    (erewrite emitted_app; [| solve_log]); reflexivity.
Qed.

Lemma steps_emitted_forall {A} P (c : M A) w :
  steps P c -> Forall P (emitted w (snd (c w))).
Proof.
  intros H. destruct (H w) as (l & Hl & HP & _).
  now rewrite (emitted_app _ _ _ Hl).
Qed.

Lemma image_stage_stages tag remote fast w :
  log (snd (image_stage tag remote fast w))
  = log w ++ emitted w (snd (image_stage tag remote fast w))
  /\ stages (emitted w (snd (image_stage tag remote fast w)))
     = Build <$> build_actions (emitted w (snd (image_stage tag remote fast w)))
  /\ (exists full, image_stage_done remote fast tag full
                   /\ build_actions (emitted w (snd (image_stage tag remote fast w)))
                      `prefix_of` full)
  /\ (fst (image_stage tag remote fast w) = Ok tt ->
      image_stage_done remote fast tag
        (build_actions (emitted w (snd (image_stage tag remote fast w))))).
Proof.
  assert (Hs : steps image_stage_event (image_stage tag remote fast))
    by (apply steps_image_stage; intros; reflexivity).
  split; [apply (steps_emitted _ _ _ Hs) |].
  split; [apply stages_image_events, (steps_emitted_forall _ _ _ Hs) |].
  destruct (image_stage_actions tag remote fast w) as (l & Hl & Hpre & Hdone).
  rewrite (emitted_app _ _ _ Hl). split; assumption.
Qed.

Lemma fast_version_exists (fast : bool) (version : string) :
  exists v : string,
    if fast
    then exists s, v = version +:+ "-fast" +:+ s
                   /\ String.length s = 7%nat /\ PyStr.all_hex s = true
    else v = version.
Proof.
  destruct fast; [| exists version; reflexivity].
  exists (version +:+ "-fast" +:+ "0000000"), "0000000". repeat split.
Qed.

(** X6: in a repository whose HEAD resolves to a commit, every run of [main]
    goes through the stages in one order:
    provisioning first (one or two calls of flytectl), then the image stage
    for the tag of HEAD, then one packaging bound to that same tag, then one
    registration, of HEAD's hexsha or, when fast, of that hexsha followed by
    [-fast] and seven hexadecimal characters.  A run that stops early has done
    a beginning of this sequence, never a later stage without the earlier
    ones; a run that ends normally has done all of it. *)
Theorem main_pipeline (remote fast : bool) (domain : string)
    (registry : option string) (w : World) (r : Repo) (commit : Commit) :
  repo w = Some r ->
  HEAD r = Some commit ->
  let version := hexsha commit in
  let tag := get_tag version registry in
  let seen := stages (emitted w (snd (main remote fast domain registry w))) in
  exists (n : nat) (acts : list BuildAction) (v : string),
    (n = 1 \/ n = 2)%nat
    /\ image_stage_done remote fast tag acts
    /\ (if fast
        then exists s, v = version +:+ "-fast" +:+ s
                       /\ String.length s = 7%nat /\ PyStr.all_hex s = true
        else v = version)
    /\ seen `prefix_of`
         replicate n Provision ++ (Build <$> acts) ++ [Package tag; Publish v]
    /\ (exists rest, seen = Provision :: rest)
    /\ (fst (main remote fast domain registry w) = Ok tt ->
        seen = replicate n Provision ++ (Build <$> acts)
               ++ [Package tag; Publish v]).
Proof.
  intros Hrepo Hcommit version tag seen. subst seen.
  rewrite main_sequence, Hrepo, Hcommit. fold version. fold tag.
  pose proof (steps_emitted _ _ w (steps_before_image_stage remote fast)) as Hg1.
  assert (Hn : exists n, (n = 1 \/ n = 2)%nat
                 /\ stages (emitted w (snd ((flag_check remote fast ;;
                                             create_project remote) w)))
                    = replicate n Provision).
  { destruct (provisioning_stages remote fast w) as [H|H];
      [exists 1%nat | exists 2%nat]; split; auto. }
  destruct Hn as (n & Hn & Hs1).
  assert (Hhead : forall l, exists rest, replicate n Provision ++ l = Provision :: rest)
    by (intros l; destruct Hn as [-> | ->]; eexists; reflexivity).
  destruct ((flag_check remote fast ;; create_project remote) w)
    as [[[]|e1] w1]; cbn [snd] in Hg1, Hs1.
  2:{ cbn [fst snd]. rewrite Hs1.
      destruct (image_stage_done_exists remote fast tag) as (acts & Hacts).
      destruct (fast_version_exists fast version) as (v & Hv).
      exists n, acts, v. repeat split; try assumption.
      - apply prefix_app_r. reflexivity.
      - rewrite <- (app_nil_r (replicate n Provision)). apply Hhead.
      - discriminate. }
  destruct (negb fast && is_dirty r).
  { cbn [fst snd].
    assert (Hg : log (emit (Echo true dirty_tree_message) w1)
                 = log w1 ++ emitted w1 (emit (Echo true dirty_tree_message) w1))
      by (erewrite emitted_app; reflexivity).
    destruct (emitted_trans w w1 _ Hg1 Hg) as [-> _].
    erewrite (emitted_app w1); [| reflexivity].
    rewrite stages_app, Hs1. cbn [stages omap list_omap stage_of build_action fmap option_fmap option_map].
    destruct (image_stage_done_exists remote fast tag) as (acts & Hacts).
    destruct (fast_version_exists fast version) as (v & Hv).
    exists n, acts, v. repeat split; try assumption.
    - rewrite app_nil_r. apply prefix_app_r. reflexivity.
    - apply Hhead.
    - discriminate. }
  rewrite bind_unfold.
  destruct (image_stage_stages tag remote fast w1) as (Hg2 & Hs2 & Hpre & Hdone).
  destruct (image_stage tag remote fast w1) as [[[]|e2] w2];
    cbn [fst snd] in Hg2, Hs2, Hpre, Hdone.
  2:{ cbn [fst snd].
      destruct (emitted_trans w w1 w2 Hg1 Hg2) as [-> _].
      rewrite stages_app, Hs1, Hs2.
      destruct Hpre as (acts & Hacts & k & ->).
      destruct (fast_version_exists fast version) as (v & Hv).
      exists n, (build_actions (emitted w1 w2) ++ k), v.
      repeat split; try assumption.
      - apply prefix_app. rewrite fmap_app, <- app_assoc.
        apply prefix_app_r. reflexivity.
      - apply Hhead.
      - discriminate. }
  specialize (Hdone eq_refl). clear Hpre.
  destruct (emitted_trans w w1 w2 Hg1 Hg2) as [E2 Hg02].
  rewrite bind_unfold.
  assert (Hg3 : log (snd (serialize tag remote fast w2))
                = log w2 ++ emitted w2 (snd (serialize tag remote fast w2))).
  { apply (steps_emitted (fun _ => True)).
    apply steps_serialize; intros; exact I. }
  pose proof (serialize_stages tag remote fast w2) as Hs3.
  destruct (serialize tag remote fast w2) as [[[]|e3] w3];
    cbn [fst snd] in Hg3, Hs3.
  2:{ cbn [fst snd].
      destruct (emitted_trans w w2 w3 Hg02 Hg3) as [-> _].
      destruct (fast_version_exists fast version) as (v & Hv).
      exists n, (build_actions (emitted w1 w2)), v.
      destruct Hs3 as [Hs3 | [Hs3 _]];
        rewrite E2, !stages_app, Hs1, Hs2, Hs3;
        repeat split; try assumption; try discriminate.
      - rewrite <- app_assoc. do 2 apply prefix_app.
        exists [Publish v]. reflexivity.
      - rewrite <- app_assoc. apply Hhead.
      - rewrite app_nil_r. apply prefix_app, prefix_app_r. reflexivity.
      - rewrite <- app_assoc. apply Hhead. }
  destruct Hs3 as [Hs3 | [_ [e3 He3]]]; [| discriminate].
  destruct (emitted_trans w w2 w3 Hg02 Hg3) as [E3 Hg03].
  assert (Hg4 : log (snd (register version remote fast domain w3))
                = log w3 ++ emitted w3 (snd (register version remote fast domain w3))).
  { apply (steps_emitted (fun _ => True)).
    apply steps_register; intros; exact I. }
  pose proof (register_stages version remote fast domain w3) as Hs4.
  destruct (emitted_trans w w3 _ Hg03 Hg4) as [-> _].
  rewrite E3, E2, !stages_app, Hs1, Hs2, Hs3, Hs4, <- !app_assoc.
  exists n, (build_actions (emitted w1 w2)),
    (if fast
     then version +:+ "-fast"
          +:+ PyStr.slice_to 7
                (uuid.hex (uuid.of_random (urandom16 (host w3) (drawn w3))))
     else version).
  split; [exact Hn |]. split; [exact Hdone |].
  split; [| split; [reflexivity | split; [apply Hhead | reflexivity]]].
  destruct fast; [| reflexivity].
  eexists. split; [reflexivity |].
  rewrite fast_suffix_leading.
  split; [apply hex_fixed_length | apply hex_fixed_all_hex].
Qed.

(** In [demo_world] HEAD is abc123: the sandbox deployment there queries and
    creates the project, builds in the sandbox, packages and registers
    abc123. *)
Lemma main_pipeline_witness :
  exists (n : nat) (acts : list BuildAction) (v : string),
    (n = 1 \/ n = 2)%nat
    /\ image_stage_done false false
         (get_tag "abc123" None) acts
    /\ v = "abc123"
    /\ stages (emitted demo_world
                 (snd (main false false "development" None demo_world)))
       `prefix_of` replicate n Provision ++ (Build <$> acts)
                   ++ [Package (get_tag "abc123" None); Publish v]
    /\ (exists rest,
          stages (emitted demo_world
                    (snd (main false false "development" None demo_world)))
          = Provision :: rest)
    /\ (fst (main false false "development" None demo_world) = Ok tt ->
        stages (emitted demo_world
                  (snd (main false false "development" None demo_world)))
        = replicate n Provision ++ (Build <$> acts)
          ++ [Package (get_tag "abc123" None); Publish v]).
Proof.
  exact (main_pipeline false false "development" None demo_world
           {| is_dirty := false; HEAD := Some {| hexsha := "abc123" |} |}
           {| hexsha := "abc123" |} eq_refl eq_refl).
Defined.

(** ** The tree is checked after provisioning *)

Lemma creation_calls_app l1 l2 :
  creation_calls (l1 ++ l2) = (creation_calls l1 + creation_calls l2)%nat.
Proof.
  unfold creation_calls. now rewrite List.filter_app, List.length_app.
Qed.

(** X7: on a tree with uncommitted changes and without the fast flag, [main]
    is [create_project] followed, if that succeeded, by the message on the
    error stream and [Exit 1].  The cluster has been queried, and the project
    created if it was missing, before the tree is looked at; nothing is
    built, packaged or registered. *)
Theorem main_checks_tree_after_provisioning (remote : bool) (domain : string)
    (registry : option string) (w : World) (r : Repo) :
  repo w = Some r ->
  is_dirty r = true ->
  main remote false domain registry w
  = match create_project remote w with
    | (Ok _, w1) => (Raise (Exit 1), emit (Echo true dirty_tree_message) w1)
    | (Raise e, w1) => (Raise e, w1)
    end
  /\ creation_calls (emitted w (snd (main remote false domain registry w)))
     = creation_calls (emitted w (snd (create_project remote w)))
  /\ build_actions (emitted w (snd (main remote false domain registry w))) = []
  /\ registered_versions (emitted w (snd (main remote false domain registry w)))
     = [].
Proof.
  intros Hrepo Hdirty.
  assert (Hmain : main remote false domain registry w
                  = match create_project remote w with
                    | (Ok _, w1) =>
                        (Raise (Exit 1), emit (Echo true dirty_tree_message) w1)
                    | (Raise e, w1) => (Raise e, w1)
                    end).
  { rewrite main_sequence, Hrepo, Hdirty. cbn [negb andb].
    replace ((flag_check remote false ;; create_project remote) w)
      with (create_project remote w) by (destruct remote; reflexivity).
    destruct (create_project remote w) as [[[]|e] w1]; reflexivity. }
  split; [exact Hmain |]. rewrite Hmain. clear Hmain.
  assert (Hs : steps (fun e => no_build e /\ no_publish e) (create_project remote)).
  { apply steps_create_project; [intros; split; reflexivity |].
    intros argv H. split.
    - apply no_build_spawn. destruct H as [H|H]; rewrite H; discriminate.
    - unfold no_publish, registered_version.
      rewrite bool_decide_eq_false_2; [reflexivity |].
      intros (H2 & _). destruct H as [H|H]; rewrite H in H2; discriminate. }
  pose proof (steps_emitted _ _ w Hs) as Hg.
  pose proof (steps_emitted_forall _ _ w Hs) as HP.
  assert (Hquiet : build_actions (emitted w (snd (create_project remote w))) = []
                   /\ registered_versions (emitted w (snd (create_project remote w))) = []).
  { clear Hg. induction HP as [|e l [Hb Hp] _ [IHb IHp]]; [split; reflexivity |].
    unfold build_actions, registered_versions in *. cbn [omap list_omap].
    rewrite Hb, Hp. split; assumption. }
  destruct Hquiet as [Hb Hp].
  destruct (create_project remote w) as [[[]|e] w1]; cbn [snd] in *; [| auto].
  assert (Hg' : log (emit (Echo true dirty_tree_message) w1)
                = log w1 ++ emitted w1 (emit (Echo true dirty_tree_message) w1))
    by (erewrite emitted_app; reflexivity).
  destruct (emitted_trans w w1 _ Hg Hg') as [-> _].
  erewrite (emitted_app w1); [| reflexivity].
  rewrite creation_calls_app, build_actions_app, registered_versions_app, Hb, Hp.
  repeat split. apply Nat.add_0_r.
Qed.

(** In the dirty checkout of [demo_world] the project is created and the run
    then stops with [Exit 1]. *)
Lemma main_checks_tree_after_provisioning_witness :
  creation_calls
    (emitted (dirty_checkout demo_world)
       (snd (main false false "development" None (dirty_checkout demo_world))))
  = 1%nat
  /\ fst (main false false "development" None (dirty_checkout demo_world))
     = Raise (Exit 1).
Proof.
  destruct (main_checks_tree_after_provisioning false "development" None
              (dirty_checkout demo_world)
              {| is_dirty := true; HEAD := Some {| hexsha := "abc123" |} |}
              eq_refl eq_refl) as (-> & _).
  split; reflexivity.
Defined.

(** ** Nothing is registered without a package *)

Lemma serialize_fails tag remote fast w :
  (forall history fs argv env,
     match spawn (host w) history fs ("pyflyte" :: argv) env with
     | Some (cp, _) => returncode cp <> 0
     | None => True
     end) ->
  exists e, fst (serialize tag remote fast w) = Raise e.
Proof.
  intros Hfail. rewrite serialize_run. cbv zeta.
  destruct (bool_decide (is_Some (files w !! "flyte-package.tgz")));
    [destruct (unlink (host w) _ "flyte-package.tgz") as [[]|] |];
    try (eexists; reflexivity);
    rewrite bind_unfold; unfold subprocess_run; cbn [app];
    match goal with
    | |- context [spawn ?h ?hist ?fs ("pyflyte" :: ?argv) ?env] =>
        pose proof (Hfail hist fs argv env) as Hc;
        change (spawn h hist fs ("pyflyte" :: argv) env)
          with (spawn (host w) hist fs ("pyflyte" :: argv) env);
        revert Hc;
        destruct (spawn (host w) hist fs ("pyflyte" :: argv) env)
          as [[cp fs']|]; intros Hc
    end;
    try (apply Z.eqb_neq in Hc; rewrite Hc); eexists; reflexivity.
Qed.

Lemma no_publish_spawn argv env :
  take 2 argv <> ["flytectl"; "-c"] -> no_publish (Spawn argv env).
Proof.
  intros Hne. unfold no_publish, registered_version.
  rewrite bool_decide_eq_false_2; [reflexivity |].
  intros (H & _). contradiction.
Qed.

Lemma registered_versions_none l :
  Forall no_publish l -> registered_versions l = [].
Proof.
  induction 1 as [|e l He _ IH]; [reflexivity |].
  unfold registered_versions in *. cbn [omap list_omap]. rewrite He. exact IH.
Qed.

(** X8: when every call of pyflyte fails, whether it exits with an error or
    cannot be started, [main] raises and no version is registered, whatever
    the target, the flags and the state of the cluster. *)
Theorem failed_packaging_is_not_registered (remote fast : bool)
    (domain : string) (registry : option string) (w : World) :
  (forall history fs argv env,
     match spawn (host w) history fs ("pyflyte" :: argv) env with
     | Some (cp, _) => returncode cp <> 0
     | None => True
     end) ->
  (exists e, fst (main remote fast domain registry w) = Raise e)
  /\ registered_versions (emitted w (snd (main remote fast domain registry w)))
     = [].
Proof.
  intros Hfail. rewrite main_sequence.
  assert (Hs1 : steps no_publish (flag_check remote fast ;; create_project remote)).
  { apply steps_bind.
    - unfold flag_check. apply steps_if; [apply steps_echo | apply steps_ret].
      reflexivity.
    - intros _. apply steps_create_project; [reflexivity |].
      intros argv [H|H]; apply no_publish_spawn; rewrite H; discriminate. }
  destruct (Hs1 w) as (l1 & Hl1 & HP1 & _ & Hh1).
  apply registered_versions_none in HP1.
  destruct ((flag_check remote fast ;; create_project remote) w)
    as [[[]|e1] w1]; cbn [snd] in Hl1, Hh1.
  2:{ cbn [fst snd]. rewrite (emitted_app _ _ _ Hl1). eauto. }
  destruct (repo w) as [r|];
    [| cbn [fst snd]; rewrite (emitted_app _ _ _ Hl1); eauto].
  destruct (negb fast && is_dirty r).
  { cbn [fst snd].
    erewrite emitted_app; [| cbn [log emit]; rewrite Hl1, <- app_assoc; reflexivity].
    rewrite registered_versions_app, HP1. eauto. }
  destruct (HEAD r) as [commit|];
    [| cbn [fst snd]; rewrite (emitted_app _ _ _ Hl1); eauto].
  set (tag := get_tag (hexsha commit) registry).
  rewrite bind_unfold.
  assert (Hs2 : steps no_publish (image_stage tag remote fast))
    by (apply steps_image_stage; intros; reflexivity).
  destruct (Hs2 w1) as (l2 & Hl2 & HP2 & _ & Hh2).
  apply registered_versions_none in HP2.
  destruct (image_stage tag remote fast w1) as [[[]|e2] w2]; cbn [snd] in Hl2, Hh2.
  2:{ cbn [fst snd].
      erewrite emitted_app; [| rewrite Hl2, Hl1, <- app_assoc; reflexivity].
      rewrite registered_versions_app, HP1, HP2. eauto. }
  rewrite bind_unfold.
  assert (Hs3 : steps no_publish (serialize tag remote fast)).
  { apply steps_serialize; [reflexivity | reflexivity |].
    intros argv env H. apply no_publish_spawn. rewrite H. discriminate. }
  destruct (Hs3 w2) as (l3 & Hl3 & HP3 & _).
  apply registered_versions_none in HP3.
  destruct (serialize_fails tag remote fast w2) as (e3 & He3).
  { rewrite Hh2, Hh1. exact Hfail. }
  destruct (serialize tag remote fast w2) as [[[]|e3'] w3];
    cbn [fst snd] in Hl3, He3; [discriminate |].
  cbn [fst snd].
  erewrite emitted_app; [| rewrite Hl3, Hl2, Hl1, <- !app_assoc; reflexivity].
  rewrite !registered_versions_app, HP1, HP2, HP3. eauto.
Qed.

(** In [broken_packager_world] pyflyte exits with status 1: the sandbox
    deployment registers nothing. *)
Lemma failed_packaging_is_not_registered_witness :
  registered_versions
    (emitted broken_packager_world
       (snd (main false false "development" None broken_packager_world)))
  = [].
Proof.
  refine (proj2 (failed_packaging_is_not_registered false false "development"
                   None broken_packager_world _)).
  intros history fs argv env. cbn. discriminate.
Defined.

(** ** The only file the script removes is the archive *)

Lemma files_emit_all l w : files (emit_all l w) = files w.
Proof. revert w. induction l as [|e l IH]; intros w; simpl; [|rewrite IH]; reflexivity. Qed.

Lemma only_unlinks_same {A} (c : M A) :
  (forall w, host (snd (c w)) = host w /\ files (snd (c w)) = files w) ->
  only_unlinks_archive c.
Proof.
  intros H w _. destruct (H w) as [Hh Hf]. split; [exact Hh |].
  intros p. left. now rewrite Hf.
Qed.

Lemma only_unlinks_bind {A B} (c : M A) (k : A -> M B) :
  only_unlinks_archive c -> (forall a, only_unlinks_archive (k a)) ->
  only_unlinks_archive (bind c k).
Proof.
  intros Hc Hk w Hw. rewrite bind_unfold.
  destruct (Hc w Hw) as [Hh1 Hf1].
  destruct (c w) as [[a|e] w1]; cbn [snd] in *; [| auto].
  assert (Hw1 : tools_write_nothing (host w1)) by (rewrite Hh1; exact Hw).
  destruct (Hk a w1 Hw1) as [Hh2 Hf2].
  split; [congruence |].
  intros p. destruct (Hf2 p) as [H2 | [-> H2]]; [| right; auto].
  destruct (Hf1 p) as [H1 | [-> H1]]; [left | right; split; auto]; congruence.
Qed.

Lemma only_unlinks_if {A} (b : bool) (c1 c2 : M A) :
  only_unlinks_archive c1 -> only_unlinks_archive c2 ->
  only_unlinks_archive (if b then c1 else c2).
Proof. destruct b; auto. Qed.

Lemma only_unlinks_echo message err : only_unlinks_archive (echo message err).
Proof. apply only_unlinks_same. intros w. split; reflexivity. Qed.

Lemma only_unlinks_ret {A} (a : A) : only_unlinks_archive (ret a).
Proof. apply only_unlinks_same. intros w. split; reflexivity. Qed.

Lemma only_unlinks_for_each_echo lines :
  only_unlinks_archive (for_each lines (fun line => echo line false)).
Proof.
  apply only_unlinks_same. intros w. rewrite for_each_echo. cbn [snd].
  now rewrite host_emit_all, files_emit_all.
Qed.

Lemma only_unlinks_subprocess_run argv check env :
  only_unlinks_archive (subprocess_run argv check env).
Proof.
  intros w Hw. unfold subprocess_run.
  destruct (spawn (host w) (log w) (files w) argv env) as [[cp fs]|] eqn:Hs.
  - apply Hw in Hs. subst fs.
    destruct (check && negb (returncode cp =? 0)); split; auto.
  - split; auto.
Qed.

Lemma only_unlinks_create_project remote :
  only_unlinks_archive (create_project remote).
Proof.
  unfold create_project.
  apply only_unlinks_bind; [apply only_unlinks_subprocess_run |].
  intros output. apply only_unlinks_bind.
  { apply only_unlinks_same. intros w. unfold bytes_decode.
    destruct (PyStr.decode (stdout output)); split; reflexivity. }
  intros text. apply only_unlinks_if; [| apply only_unlinks_ret].
  apply only_unlinks_bind; [apply only_unlinks_echo |]. intros _.
  apply only_unlinks_bind; [apply only_unlinks_subprocess_run |].
  intros _. apply only_unlinks_ret.
Qed.

Lemma only_unlinks_get_version fast : only_unlinks_archive (get_version fast).
Proof.
  apply only_unlinks_same. intros w. rewrite get_version_run.
  destruct (repo w) as [r|]; [| split; reflexivity].
  destruct (negb fast && is_dirty r); [split; reflexivity |].
  destruct (HEAD r); split; reflexivity.
Qed.

Lemma only_unlinks_image_stage tag remote fast :
  only_unlinks_archive (image_stage tag remote fast).
Proof.
  unfold image_stage.
  apply only_unlinks_if; [| apply only_unlinks_ret].
  apply only_unlinks_if.
  - apply only_unlinks_bind.
    + unfold docker_build.
      apply only_unlinks_bind; [apply only_unlinks_echo |]. intros _.
      apply only_unlinks_bind.
      * apply only_unlinks_same. intros w. unfold client_images_build.
        destruct (images_build _ _ _ _); split; reflexivity.
      * intros r. apply only_unlinks_bind; [apply only_unlinks_for_each_echo |].
        intros _. apply only_unlinks_ret.
    + intros image. unfold docker_push.
      destruct (tags image) as [|t ts].
      * apply only_unlinks_same. intros w. split; reflexivity.
      * apply only_unlinks_bind; [| intros; apply only_unlinks_for_each_echo].
        apply only_unlinks_same. intros w. split; reflexivity.
  - unfold sandbox_docker_build.
    apply only_unlinks_bind; [apply only_unlinks_echo |]. intros _.
    apply only_unlinks_bind; [apply only_unlinks_subprocess_run |].
    intros _. apply only_unlinks_ret.
Qed.

Lemma only_unlinks_serialize tag remote fast :
  only_unlinks_archive (serialize tag remote fast).
Proof.
  unfold serialize.
  apply only_unlinks_bind; [apply only_unlinks_echo |]. intros _.
  apply only_unlinks_bind;
    [apply only_unlinks_same; intros w; split; reflexivity |].
  intros present. apply only_unlinks_bind.
  - apply only_unlinks_if; [| apply only_unlinks_ret].
    intros w _. unfold os_remove.
    destruct (unlink (host w) (log w) "flyte-package.tgz") as [[]|];
      (split; [reflexivity |]); intros p; cbn [snd files set_files emit];
      try (left; reflexivity).
    destruct (decide (p = "flyte-package.tgz")) as [-> | Hp].
    + right. split; [reflexivity | apply lookup_delete_eq].
    + left. apply lookup_delete_ne. congruence.
  - intros _. apply only_unlinks_bind;
      [apply only_unlinks_same; intros w; split; reflexivity |].
    intros os_env.
    apply only_unlinks_bind; [apply only_unlinks_subprocess_run |].
    intros _. apply only_unlinks_ret.
Qed.

Lemma only_unlinks_register version remote fast domain :
  only_unlinks_archive (register version remote fast domain).
Proof.
  unfold register.
  apply only_unlinks_bind; [apply only_unlinks_echo |]. intros _.
  apply only_unlinks_bind.
  - apply only_unlinks_if; [| apply only_unlinks_ret].
    apply only_unlinks_bind; [| intros; apply only_unlinks_ret].
    apply only_unlinks_same. intros w. split; reflexivity.
  - intros v. apply only_unlinks_bind; [apply only_unlinks_subprocess_run |].
    intros _. apply only_unlinks_echo.
Qed.

(** X9: as long as the external tools write no file, a run of [main],
    whatever its flags and however it ends, leaves every file as it was, with
    one exception: the archive [flyte-package.tgz] may be gone.  The script
    itself creates no file and removes no other. *)
Theorem main_only_unlinks_archive (remote fast : bool) (domain : string)
    (registry : option string) (w : World) :
  tools_write_nothing (host w) ->
  forall p,
    files (snd (main remote fast domain registry w)) !! p = files w !! p
    \/ (p = "flyte-package.tgz"
        /\ files (snd (main remote fast domain registry w)) !! p = None).
Proof.
  intros Hw.
  assert (H : only_unlinks_archive (main remote fast domain registry)).
  { unfold main.
    apply only_unlinks_bind;
      [apply only_unlinks_if; [apply only_unlinks_echo | apply only_unlinks_ret] |].
    intros _. apply only_unlinks_bind; [apply only_unlinks_create_project |].
    intros _. apply only_unlinks_bind; [apply only_unlinks_get_version |].
    intros version. apply only_unlinks_bind.
    - apply (only_unlinks_image_stage (get_tag version registry) remote fast).
    - intros _. apply only_unlinks_bind; [apply only_unlinks_serialize |].
      intros _. apply only_unlinks_register. }
  exact (proj2 (H w Hw)).
Qed.

(** The tools of [demo_world] write nothing: a sandbox deployment there leaves
    the Dockerfile entry of the file table as it was. *)
Lemma main_only_unlinks_archive_witness :
  files (snd (main false false "development" None demo_world)) !! "Dockerfile"
  = files demo_world !! "Dockerfile"
  \/ ("Dockerfile" = "flyte-package.tgz"
      /\ files (snd (main false false "development" None demo_world))
           !! "Dockerfile" = None).
Proof.
  apply (main_only_unlinks_archive false false "development" None demo_world).
  intros history fs argv env cp fs' H. cbn in H. congruence.
Defined.

(** ** With the fast flag, the dirty flag is not consulted *)

Lemma emit_all_set_dirty l b w :
  emit_all l (set_dirty b w) = set_dirty b (emit_all l w).
Proof.
  revert w. induction l as [|e l IH]; intros w; [reflexivity |].
  cbn [emit_all fold_left].
  change (emit e (set_dirty b w)) with (set_dirty b (emit e w)).
  apply IH.
Qed.

Lemma blind_bind {A B} (c : M A) (k : A -> M B) :
  blind_to_dirt c -> (forall a, blind_to_dirt (k a)) -> blind_to_dirt (bind c k).
Proof.
  intros Hc Hk b w. rewrite !bind_unfold, Hc.
  destruct (c w) as [[a|e] w1]; cbn [fst snd]; [apply Hk | reflexivity].
Qed.

Lemma blind_if {A} (b : bool) (c1 c2 : M A) :
  blind_to_dirt c1 -> blind_to_dirt c2 -> blind_to_dirt (if b then c1 else c2).
Proof. destruct b; auto. Qed.

Lemma blind_echo message err : blind_to_dirt (echo message err).
Proof. intros b w. reflexivity. Qed.

Lemma blind_ret {A} (a : A) : blind_to_dirt (ret a).
Proof. intros b w. reflexivity. Qed.

Lemma blind_for_each_echo lines :
  blind_to_dirt (for_each lines (fun line => echo line false)).
Proof.
  intros b w. rewrite !for_each_echo. cbn [fst snd].
  now rewrite emit_all_set_dirty.
Qed.

Lemma blind_subprocess_run argv check env :
  blind_to_dirt (subprocess_run argv check env).
Proof.
  intros b w. unfold subprocess_run. cbn [host log files set_dirty].
  destruct (spawn (host w) (log w) (files w) argv env) as [[cp fs]|];
    [destruct (check && negb (returncode cp =? 0)) |]; reflexivity.
Qed.

Lemma blind_create_project remote : blind_to_dirt (create_project remote).
Proof.
  unfold create_project.
  apply blind_bind; [apply blind_subprocess_run |].
  intros output. apply blind_bind.
  { intros b w. unfold bytes_decode.
    destruct (PyStr.decode (stdout output)); reflexivity. }
  intros text. apply blind_if; [| apply blind_ret].
  apply blind_bind; [apply blind_echo |]. intros _.
  apply blind_bind; [apply blind_subprocess_run |].
  intros _. apply blind_ret.
Qed.

Lemma blind_image_stage tag remote fast :
  blind_to_dirt (image_stage tag remote fast).
Proof.
  unfold image_stage.
  apply blind_if; [| apply blind_ret].
  apply blind_if.
  - apply blind_bind.
    + unfold docker_build.
      apply blind_bind; [apply blind_echo |]. intros _.
      apply blind_bind.
      * intros b w. unfold client_images_build. cbn [host log set_dirty].
        destruct (images_build _ _ _ _); reflexivity.
      * intros r. apply blind_bind; [apply blind_for_each_echo |].
        intros _. apply blind_ret.
    + intros image. unfold docker_push.
      destruct (tags image) as [|t ts]; [intros b w; reflexivity |].
      apply blind_bind; [intros b w; reflexivity |].
      intros lines. apply blind_for_each_echo.
  - unfold sandbox_docker_build.
    apply blind_bind; [apply blind_echo |]. intros _.
    apply blind_bind; [apply blind_subprocess_run |].
    intros _. apply blind_ret.
Qed.

Lemma blind_serialize tag remote fast : blind_to_dirt (serialize tag remote fast).
Proof.
  unfold serialize.
  apply blind_bind; [apply blind_echo |]. intros _.
  apply blind_bind; [intros b w; reflexivity |]. intros present.
  apply blind_bind.
  { apply blind_if; [| apply blind_ret].
    intros b w. unfold os_remove. cbn [host log set_dirty].
    destruct (unlink (host w) (log w) "flyte-package.tgz") as [[]|]; reflexivity. }
  intros _. apply blind_bind; [intros b w; reflexivity |]. intros os_env.
  apply blind_bind; [apply blind_subprocess_run |].
  intros _. apply blind_ret.
Qed.

Lemma blind_register version remote fast domain :
  blind_to_dirt (register version remote fast domain).
Proof.
  unfold register.
  apply blind_bind; [apply blind_echo |]. intros _.
  apply blind_bind.
  - apply blind_if; [| apply blind_ret].
    apply blind_bind; [intros b w; reflexivity | intros; apply blind_ret].
  - intros v. apply blind_bind; [apply blind_subprocess_run |].
    intros _. apply blind_echo.
Qed.

(** X10: with the fast flag, [main] does not consult the dirty flag of the
    working tree: two runs in worlds that differ in nothing but the answer of
    [repo.is_dirty()] end the same way, take the same actions and leave the
    same files.  (What the tools themselves read of the working tree is
    outside this statement.) *)
Theorem main_fast_ignores_dirty_flag (b : bool) (remote : bool)
    (domain : string) (registry : option string) (w : World) :
  main remote true domain registry (set_dirty b w)
  = (fst (main remote true domain registry w),
     set_dirty b (snd (main remote true domain registry w))).
Proof.
  revert b w. fold (blind_to_dirt (main remote true domain registry)).
  unfold main.
  apply blind_bind;
    [apply blind_if; [apply blind_echo | apply blind_ret] |].
  intros _. apply blind_bind; [apply blind_create_project |].
  intros _. apply blind_bind.
  { intros b w0. rewrite !get_version_run. cbn [repo set_dirty].
    destruct (repo w0) as [r|]; [| reflexivity].
    cbn. destruct (HEAD r); reflexivity. }
  intros version. apply blind_bind.
  - apply (blind_image_stage (get_tag version registry) remote true).
  - intros _. apply blind_bind; [apply blind_serialize |].
    intros _. apply blind_register.
Qed.
